(** * Readers of gpt_index: Slack conversations, plain directories, keyword mocks

    A shallow embedding of [gpt_index/readers/slack.py],
    [gpt_index/readers/file.py] and [tests/mock_utils/mock_utils.py].

    Python exceptions are values of [exn]; a call yields an [Outcome] together
    with the trace of the remote calls and log records it produced, in the
    order they happened.  The two [while True] loops of the Slack reader are
    structurally recursive on a fuel argument; [Timeout] is the outcome of a
    run whose fuel ran out, so that "for every fuel the outcome is [Timeout]"
    reads "the loop never exits". *)

From Stdlib Require Import String Ascii List Arith Lia.
From stdpp Require Import base option strings list gmap.
Import ListNotations.

Local Open Scope string_scope.
Local Open Scope list_scope.

(** ** Python values shared by the three modules *)

(** The line break of the Python literals ["\n"] and ["\n\n"]. *)
Definition nl : string := String (ascii_of_nat 10) EmptyString.
Definition nlnl : string := String.append nl nl.

(** The double quote character, for the messages that contain one. *)
Definition dq : string := String (ascii_of_nat 34) EmptyString.

(** [sep.join(l)] of Python on a list of strings. *)
Definition join (sep : string) (l : list string) : string := String.concat sep l.

(** [s.startswith(p)]. *)
Definition startswith (s p : string) : bool := String.prefix p s.

(** The exceptions the three modules raise or let through. *)
Inductive exn : Type :=
| ValueError (msg : string)
| KeyError (key : string)
| SlackApiError (msg : string)
| OSError (msg : string).

Definition is_SlackApiError (e : exn) : bool :=
  match e with SlackApiError _ => true | _ => false end.

Inductive Outcome (A : Type) : Type :=
| Ret (a : A)
| Raise (e : exn)
| Timeout.
Arguments Ret {A} a.
Arguments Raise {A} e.
Arguments Timeout {A}.

(** The call came back with a value. *)
Definition returned {A} (o : Outcome A) : bool :=
  match o with Ret _ => true | _ => false end.

(** Modelled from the spec: the class [Document] of [gpt_index.schema], which
    is imported by the readers and not part of the sources at hand.  The spec
    describes it as "an opaque text body plus an optional mapping of string
    keys to string values (extra info)"; [Document(text)] leaves the mapping
    absent. *)
Record Document : Type := mkDocument {
  body : string;
  extra_info : option (gmap string string)
}.

Definition Document_of_text (t : string) : Document := mkDocument t None.

(** ** The Slack reader ([gpt_index/readers/slack.py]) *)

Module SlackReader.

(** A raw message record: the two keys the reader looks up. *)
Record Message : Type := mkMessage {
  text : string;
  ts : string
}.

(** One response of [conversations.history] or [conversations.replies]:
    [result["messages"]], [result["has_more"]] and
    [result["response_metadata"]["next_cursor"]], the last one possibly
    missing. *)
Record Page : Type := mkPage {
  messages : list Message;
  has_more : bool;
  next_cursor : option string
}.

(** A call of the client either returns a response or raises. *)
Inductive Response (A : Type) : Type :=
| Ok (a : A)
| Fail (e : exn).
Arguments Ok {A} a.
Arguments Fail {A} e.

(** [res["ok"]] and [res["error"]] of [api_test]. *)
Record ApiTest : Type := mkApiTest {
  ok : bool;
  error : string
}.

(** The [WebClient] of [slack_sdk], the injected remote interface.  The remote
    data set does not change while it is read: a response is a function of the
    request. *)
Record WebClient : Type := mkWebClient {
  api_test : Response ApiTest;
  conversations_history : string -> option string -> Response Page;
  conversations_replies : string -> string -> option string -> Response Page
}.

(** What a run does to the outside world, in order: the requests sent
    through the client and the records handed to the logger.  The info record
    of [_read_channel] formats the number of messages and the builtin [id],
    not the channel; only the number is kept here. *)
Inductive Event : Type :=
| Call_api_test
| Call_history (channel : string) (cursor : option string)
| Call_replies (channel : string) (ts : string) (cursor : option string)
| Log_info_messages_found (n : nat)
| Log_error_conversation (e : exn).

Definition Trace : Type := list Event.

(** A computation: its outcome and the events it produced. *)
Definition M (A : Type) : Type := (Outcome A * Trace)%type.

Definition ret {A} (a : A) : M A := (Ret a, []).
Definition raise {A} (e : exn) : M A := (Raise e, []).
Definition timeout {A} : M A := (Timeout, []).
Definition emit (ev : Event) : M unit := (Ret tt, [ev]).

Definition bind {A B} (m : M A) (f : A -> M B) : M B :=
  match m with
  | (Ret a, t) => let (r, t') := f a in (r, t ++ t')
  | (Raise e, t) => (Raise e, t)
  | (Timeout, t) => (Timeout, t)
  end.

(** Events [t] happened before [m] ran. *)
Definition after {A} (t : Trace) (m : M A) : M A := (fst m, t ++ snd m).

Notation "'let*' x ':=' m 'in' k" := (bind m (fun x => k))
  (at level 10, x name, m at level 200, k at level 200, only parsing).

(** A call of a client method: the request is recorded, a failure raises. *)
Definition call {A} (ev : Event) (r : Response A) : M A :=
  let* _ := emit ev in
  match r with
  | Ok a => ret a
  | Fail e => raise e
  end.

(** [self]: the reader holds its client. *)
Record Reader : Type := mkReader {
  client : WebClient
}.

(** The module [slack_sdk] as the interpreter sees it: absent when the package
    is not installed, else the constructor [WebClient(token=...)]. *)
Definition SlackSdk : Type := option (string -> WebClient).

(** [SlackReader.__init__(self, slack_token)], with the process environment
    [os.environ] as a map.  [os.environ["SLACK_BOT_TOKEN"]] raises [KeyError]
    on a missing key and never yields [None]: the test that follows it in the
    source has no value to compare with [None]. *)
Definition __init__ (slack_sdk : SlackSdk) (environ : gmap string string)
    (slack_token : option string) : M Reader :=
  match slack_sdk with
  | None =>
      raise (ValueError
        "`slack_sdk` package not found, please run `pip install slack_sdk`")
  | Some WebClient_ =>
      let* slack_token :=
        match slack_token with
        | Some t => ret t
        | None =>
            match environ !! "SLACK_BOT_TOKEN" with
            | Some t => ret t
            | None => raise (KeyError "SLACK_BOT_TOKEN")
            end
        end in
      let self_client := WebClient_ slack_token in
      let* res := call Call_api_test (api_test self_client) in
      if negb (ok res)
      then raise (ValueError
                    (String.append "Error initializing Slack API: " (error res)))
      else ret (mkReader self_client)
  end.

(** The loop of [_read_message]: [messages_text] and [next_cursor] are the
    two local variables.  The call of the client stands before the [try], so
    its failure leaves the method; inside the [try] only lookups in the
    response happen, none of which raises [SlackApiError], so the handler
    (which would log [Error parsing conversation replies]) is never entered.
    A missing [next_cursor] makes the lookup fail with an exception that the
    handler does not catch. *)
Fixpoint _read_message_loop (fuel : nat) (self : Reader)
    (channel_id message_ts : string)
    (messages_text : list string) (cursor : option string)
    : M (list string) :=
  match fuel with
  | O => timeout
  | S fuel' =>
      let* result :=
        call (Call_replies channel_id message_ts cursor)
             (conversations_replies (client self) channel_id message_ts cursor) in
      let messages_text := messages_text ++ map text (messages result) in
      if negb (has_more result) then ret messages_text
      else
        match next_cursor result with
        | None => raise (KeyError "next_cursor")
        | Some c =>
            _read_message_loop fuel' self channel_id message_ts
                               messages_text (Some c)
        end
  end.

(** [SlackReader._read_message(self, channel_id, message_ts)]. *)
Definition _read_message (fuel : nat) (self : Reader)
    (channel_id message_ts : string) : M string :=
  let* messages_text :=
    _read_message_loop fuel self channel_id message_ts [] None in
  ret (join nlnl messages_text).

(** The [for message in conversation_history] loop of [_read_channel].  The
    list [result_messages] is appended to in place, so what was appended
    before an exception stays: the loop hands back the list together with
    the outcome. *)
Fixpoint append_threads (fuel : nat) (self : Reader) (channel_id : string)
    (conversation_history : list Message) (result_messages : list string)
    : M unit * list string :=
  match conversation_history with
  | [] => (ret tt, result_messages)
  | message :: rest =>
      match _read_message fuel self channel_id (ts message) with
      | (Ret s, t) =>
          let (m, acc) :=
            append_threads fuel self channel_id rest (result_messages ++ [s]) in
          (after t m, acc)
      | (Raise e, t) => ((Raise e, t), result_messages)
      | (Timeout, t) => ((Timeout, t), result_messages)
      end
  end.

(** The loop of [_read_channel].  Each round calls [conversations_history]
    twice: once before the [try] with the cursor, and once more inside it
    with the channel alone, and it is the second response that [result]
    holds from then on.  The handler logs and falls through to the next
    round: it has no [break]. *)
Fixpoint _read_channel_loop (fuel : nat) (self : Reader) (channel_id : string)
    (result_messages : list string) (cursor : option string)
    : M (list string) :=
  match fuel with
  | O => timeout
  | S fuel' =>
      let* _ :=
        call (Call_history channel_id cursor)
             (conversations_history (client self) channel_id cursor) in
      (* try: *)
      match call (Call_history channel_id None)
                 (conversations_history (client self) channel_id None) with
      | (Ret result, t1) =>
          let conversation_history := messages result in
          let t2 := t1 ++ [Log_info_messages_found (length conversation_history)] in
          match append_threads fuel' self channel_id conversation_history
                               result_messages with
          | ((Ret _, t3), result_messages) =>
              after (t2 ++ t3)
                (if negb (has_more result) then ret result_messages
                 else
                   match next_cursor result with
                   | None => raise (KeyError "next_cursor")
                   | Some c =>
                       _read_channel_loop fuel' self channel_id
                                          result_messages (Some c)
                   end)
          | ((Raise e, t3), result_messages) =>
              if is_SlackApiError e
              then after (t2 ++ t3 ++ [Log_error_conversation e])
                     (_read_channel_loop fuel' self channel_id
                                         result_messages cursor)
              else (Raise e, t2 ++ t3)
          | ((Timeout, t3), _) => (Timeout, t2 ++ t3)
          end
      | (Raise e, t1) =>
          if is_SlackApiError e
          then after (t1 ++ [Log_error_conversation e])
                 (_read_channel_loop fuel' self channel_id
                                     result_messages cursor)
          else (Raise e, t1)
      | (Timeout, t1) => (Timeout, t1)
      end
  end.

(** [SlackReader._read_channel(self, channel_id)]. *)
Definition _read_channel (fuel : nat) (self : Reader) (channel_id : string)
    : M string :=
  let* result_messages := _read_channel_loop fuel self channel_id [] None in
  ret (join nlnl result_messages).

(** The [for channel_id in channel_ids] loop of [load_data]. *)
Fixpoint load_channels (fuel : nat) (self : Reader)
    (channel_ids : list string) (results : list Document)
    : M (list Document) :=
  match channel_ids with
  | [] => ret results
  | channel_id :: rest =>
      let* channel_content := _read_channel fuel self channel_id in
      load_channels fuel self rest
        (results ++
         [mkDocument channel_content (Some {[ "channel" := channel_id ]})])
  end.

(** The message of the [ValueError] of [load_data]; it quotes [channel_id]. *)
Definition must_specify_channel_id : string :=
  String.concat dq ["Must specify a "; "channel_id"; " in `load_kwargs`."].

(** [SlackReader.load_data(self, **load_kwargs)].  A keyword argument is
    either [None] or a list of channel ids;
    [load_kwargs.pop("channel_ids", None)] gives [None] for a missing key. *)
Definition load_data (fuel : nat) (self : Reader)
    (load_kwargs : gmap string (option (list string))) : M (list Document) :=
  let channel_ids := default None (load_kwargs !! "channel_ids") in
  match channel_ids with
  | None => raise (ValueError must_specify_channel_id)
  | Some channel_ids => load_channels fuel self channel_ids []
  end.

(** *** Vocabulary of the statements *)

(** Two clients answer every page request alike. *)
Definition same_responses (c1 c2 : WebClient) : Prop :=
  (forall channel cursor,
      conversations_history c1 channel cursor
      = conversations_history c2 channel cursor) /\
  (forall channel message_ts cursor,
      conversations_replies c1 channel message_ts cursor
      = conversations_replies c2 channel message_ts cursor).

(** [thread_pages c channel message_ts cursor pages]: from [cursor] on, the
    thread anchored at [message_ts] is served without error as the pages
    [pages], each one reached through the cursor of the one before, the last
    one being the first whose [has_more] is false. *)
Inductive thread_pages (c : WebClient) (channel message_ts : string)
    : option string -> list Page -> Prop :=
| thread_last cursor p :
    conversations_replies c channel message_ts cursor = Ok p ->
    has_more p = false ->
    thread_pages c channel message_ts cursor [p]
| thread_more cursor p next pages :
    conversations_replies c channel message_ts cursor = Ok p ->
    has_more p = true ->
    next_cursor p = Some next ->
    thread_pages c channel message_ts (Some next) pages ->
    thread_pages c channel message_ts cursor (p :: pages).

(** The records of a sequence of pages, in fetch order. *)
Definition records (pages : list Page) : list Message :=
  flat_map messages pages.

(** The requests that fetch [pages] one after the other from [cursor]. *)
Fixpoint thread_calls (channel message_ts : string) (cursor : option string)
    (pages : list Page) : Trace :=
  match pages with
  | [] => []
  | p :: rest =>
      Call_replies channel message_ts cursor
      :: thread_calls channel message_ts (next_cursor p) rest
  end.

(** The text of a thread: the texts of its records, a blank line between. *)
Definition thread_text (pages : list Page) : string :=
  join nlnl (map text (records pages)).

(** The read of a channel comes to an end with a body. *)
Definition completes (c : WebClient) (channel : string) : Prop :=
  exists fuel content,
    fst (_read_channel fuel (mkReader c) channel) = Ret content.

(** [d] is the document of [channel]: the body the read of the channel
    returns, and the channel as the one entry of the extra info. *)
Definition document_of (fuel : nat) (self : Reader) (channel : string)
    (d : Document) : Prop :=
  fst (_read_channel fuel self channel) = Ret (body d) /\
  extra_info d = Some {[ "channel" := channel ]}.

(** *** Sample workspaces

    One channel, ["C1"], with three messages; the first one anchors a thread
    of two replies that the API serves in two pages. *)

Definition anchor : Message := mkMessage "hello" "1.0".
Definition reply1 : Message := mkMessage "hi" "1.1".
Definition reply2 : Message := mkMessage "welcome" "1.2".
Definition second : Message := mkMessage "standup at ten" "2.0".
Definition third : Message := mkMessage "lunch" "3.0".

Definition sample_replies (channel message_ts : string)
    (cursor : option string) : Response Page :=
  if negb (String.eqb channel "C1") then Fail (SlackApiError "channel_not_found")
  else if String.eqb message_ts "1.0" then
    match cursor with
    | None => Ok (mkPage [anchor; reply1] true (Some "t1"))
    | Some _ => Ok (mkPage [reply2] false None)
    end
  else if String.eqb message_ts "2.0" then Ok (mkPage [second] false None)
  else if String.eqb message_ts "3.0" then Ok (mkPage [third] false None)
  else Fail (SlackApiError "thread_not_found").

Definition api_test_ok : Response ApiTest := Ok (mkApiTest true "").

(** The whole history in one page. *)
Definition single_page_client : WebClient :=
  mkWebClient api_test_ok
    (fun channel cursor =>
       if String.eqb channel "C1"
       then Ok (mkPage [anchor; second; third] false None)
       else Fail (SlackApiError "channel_not_found"))
    sample_replies.

(** The history in two pages, the second one behind the cursor ["c1"]. *)
Definition two_page_client : WebClient :=
  mkWebClient api_test_ok
    (fun channel cursor =>
       if String.eqb channel "C1" then
         match cursor with
         | None => Ok (mkPage [anchor; second] true (Some "c1"))
         | Some _ => Ok (mkPage [third] false None)
         end
       else Fail (SlackApiError "channel_not_found"))
    sample_replies.

(** The same history, but the request for the second page fails. *)
Definition failing_second_page_client : WebClient :=
  mkWebClient api_test_ok
    (fun channel cursor =>
       if String.eqb channel "C1" then
         match cursor with
         | None => Ok (mkPage [anchor; second] true (Some "c1"))
         | Some _ => Fail (SlackApiError "ratelimited")
         end
       else Fail (SlackApiError "channel_not_found"))
    sample_replies.

Definition kwargs_channel_ids (channel_ids : list string)
    : gmap string (option (list string)) :=
  {[ "channel_ids" := Some channel_ids ]}.

(** *** More vocabulary: unfinished threads and what is requested *)

(** [thread_prefix c channel message_ts cursor pages cursor']: from [cursor]
    on, the thread is served as the pages [pages], every one of which says
    [has_more] and names the cursor of the next; [cursor'] is the cursor the
    last one names ([cursor] itself when there is no page). *)
Inductive thread_prefix (c : WebClient) (channel message_ts : string)
    : option string -> list Page -> option string -> Prop :=
| prefix_nil cursor :
    thread_prefix c channel message_ts cursor [] cursor
| prefix_cons cursor p next pages cursor' :
    conversations_replies c channel message_ts cursor = Ok p ->
    has_more p = true ->
    next_cursor p = Some next ->
    thread_prefix c channel message_ts (Some next) pages cursor' ->
    thread_prefix c channel message_ts cursor (p :: pages) cursor'.

(** The requests that fetch the threads [threads] of the messages
    [history], thread after thread. *)
Fixpoint channel_thread_calls (channel : string) (history : list Message)
    (threads : list (list Page)) : Trace :=
  match history, threads with
  | message :: history', pages :: threads' =>
      thread_calls channel (ts message) None pages
      ++ channel_thread_calls channel history' threads'
  | _, _ => []
  end.

(** The cursors of the [conversations_history] requests of a trace. *)
Fixpoint history_cursors (t : Trace) : list (option string) :=
  match t with
  | [] => []
  | Call_history _ cursor :: t' => cursor :: history_cursors t'
  | _ :: t' => history_cursors t'
  end.

(** The channels a trace sends a request about. *)
Fixpoint requested_channels (t : Trace) : list string :=
  match t with
  | [] => []
  | Call_history channel _ :: t' => channel :: requested_channels t'
  | Call_replies channel _ _ :: t' => channel :: requested_channels t'
  | _ :: t' => requested_channels t'
  end.

(** The cursors [_read_channel] may send with a history request: none, or
    the one named by the page that is served without a cursor, when that page
    says [has_more]. *)
Definition first_page_cursor (c : WebClient) (channel : string)
    (cursor : option string) : Prop :=
  cursor = None \/
  exists p,
    conversations_history c channel None = Ok p /\
    has_more p = true /\ next_cursor p = cursor.

(** The anchors [_read_channel] may read the thread of: the messages of the
    page that is served without a cursor. *)
Definition first_page_anchor (c : WebClient) (channel : string)
    (message_ts : string) : Prop :=
  exists p message,
    conversations_history c channel None = Ok p /\
    In message (messages p) /\ ts message = message_ts.

(** The events a read of [channel] may produce. *)
Definition channel_event (c : WebClient) (channel : string) (ev : Event)
    : Prop :=
  match ev with
  | Call_api_test => False
  | Call_history channel' cursor =>
      channel' = channel /\ first_page_cursor c channel cursor
  | Call_replies channel' message_ts _ =>
      channel' = channel /\ first_page_anchor c channel message_ts
  | Log_info_messages_found _ => True
  | Log_error_conversation e => is_SlackApiError e = true
  end.

(** *** More sample workspaces *)

(** A message whose thread the API refuses to serve. *)
Definition orphan : Message := mkMessage "ghost" "9.9".

(** One page of history; the thread of its second message cannot be read. *)
Definition broken_thread_client : WebClient :=
  mkWebClient api_test_ok
    (fun channel cursor =>
       if String.eqb channel "C1"
       then Ok (mkPage [anchor; orphan; third] false None)
       else Fail (SlackApiError "channel_not_found"))
    sample_replies.

(** Threads whose second page is refused, whose first page says [has_more]
    without naming a cursor, and whose cursor leads back to the same page. *)
Definition odd_replies (channel message_ts : string)
    (cursor : option string) : Response Page :=
  if String.eqb message_ts "1.0" then
    match cursor with
    | None => Ok (mkPage [anchor; reply1] true (Some "t1"))
    | Some _ => Fail (SlackApiError "ratelimited")
    end
  else if String.eqb message_ts "2.0" then Ok (mkPage [second] true None)
  else Ok (mkPage [third] true (Some "again")).

Definition odd_threads_client : WebClient :=
  mkWebClient api_test_ok
    (fun channel cursor => Ok (mkPage [anchor] false None))
    odd_replies.

(** One page of history whose first thread says [has_more] and names no
    cursor. *)
Definition keyless_thread_client : WebClient :=
  mkWebClient api_test_ok
    (fun channel cursor => Ok (mkPage [second; third] false None))
    odd_replies.

(** A workspace whose start-up check is refused. *)
Definition refused_client : WebClient :=
  mkWebClient (Ok (mkApiTest false "invalid_auth"))
    (fun channel cursor => Fail (SlackApiError "invalid_auth"))
    (fun channel message_ts cursor => Fail (SlackApiError "invalid_auth")).

End SlackReader.

(** ** The directory reader ([gpt_index/readers/file.py]) *)

Module SimpleDirectoryReader.

(** A [pathlib.Path] as [iterdir] yields it: its last component and its
    printed form. *)
Record Path : Type := mkPath {
  name : string;
  path_str : string
}.

(** The file system the reader runs against. *)
Record FileSystem : Type := mkFileSystem {
  iterdir : string -> exn + list Path;
  is_file : Path -> bool;
  read : Path -> exn + string
}.

(** [self.input_dir] and [self.input_files]. *)
Record Reader : Type := mkReader {
  input_dir : string;
  input_files : list Path
}.

(** The message of the [ValueError] raised for an entry that is no file. *)
Definition expected_file (input_file : Path) : string :=
  String.concat "" ["Expected "; path_str input_file; " to be a file."].

(** The [for input_file in input_files] loop of [__init__]. *)
Fixpoint check_files (fs : FileSystem) (input_files : list Path)
    : Outcome unit :=
  match input_files with
  | [] => Ret tt
  | input_file :: rest =>
      if negb (is_file fs input_file)
      then Raise (ValueError (expected_file input_file))
      else check_files fs rest
  end.

(** The list comprehension of [__init__]. *)
Definition exclude_hidden_files (input_files : list Path) : list Path :=
  List.filter (fun f => negb (startswith (name f) ".")) input_files.

(** [SimpleDirectoryReader.__init__(self, input_dir, exclude_hidden)]. *)
Definition __init__ (fs : FileSystem) (input_dir : string)
    (exclude_hidden : bool) : Outcome Reader :=
  match iterdir fs input_dir with
  | inl e => Raise e
  | inr input_files =>
      let input_files :=
        if exclude_hidden then exclude_hidden_files input_files
        else input_files in
      match check_files fs input_files with
      | Ret _ => Ret (mkReader input_dir input_files)
      | Raise e => Raise e
      | Timeout => Timeout
      end
  end.

(** The reading loop of [load_data]: [data_list] grows by one text a file. *)
Fixpoint read_files (fs : FileSystem) (input_files : list Path)
    (data_list : list string) : Outcome (list string) :=
  match input_files with
  | [] => Ret data_list
  | input_file :: rest =>
      match read fs input_file with
      | inl e => Raise e
      | inr data => read_files fs rest (data_list ++ [data])
      end
  end.

(** [SimpleDirectoryReader.load_data(self, **load_kwargs)];
    [load_kwargs.get("concatenate", True)] is [True] for a missing key. *)
Definition load_data (fs : FileSystem) (self : Reader)
    (load_kwargs : gmap string bool) : Outcome (list Document) :=
  let concatenate := default true (load_kwargs !! "concatenate") in
  match read_files fs (input_files self) [] with
  | Ret data_list =>
      if concatenate
      then Ret [Document_of_text (join nl data_list)]
      else Ret (map Document_of_text data_list)
  | Raise e => Raise e
  | Timeout => Timeout
  end.

(** *** A sample directory

    Two text files and a hidden subdirectory, in the order [iterdir] yields
    them. *)

Definition dot_git : Path := mkPath ".git" "data/.git".
Definition a_txt : Path := mkPath "a.txt" "data/a.txt".
Definition b_txt : Path := mkPath "b.txt" "data/b.txt".

Definition sample_fs : FileSystem :=
  mkFileSystem
    (fun dir =>
       if String.eqb dir "data" then inr [dot_git; a_txt; b_txt]
       else inl (OSError "No such file or directory"))
    (fun f => orb (String.eqb (name f) "a.txt") (String.eqb (name f) "b.txt"))
    (fun f =>
       if String.eqb (name f) "a.txt" then inr "foo"
       else if String.eqb (name f) "b.txt" then inr "bar"
       else inl (OSError "Is a directory")).

(** The same directory without the hidden subdirectory. *)
Definition foo_bar_fs : FileSystem :=
  mkFileSystem
    (fun dir =>
       if String.eqb dir "data" then inr [a_txt; b_txt]
       else inl (OSError "No such file or directory"))
    (is_file sample_fs)
    (read sample_fs).

(** A directory with a regular file that cannot be opened. *)
Definition secret_txt : Path := mkPath "secret.txt" "data/secret.txt".

Definition locked_fs : FileSystem :=
  mkFileSystem
    (fun dir =>
       if String.eqb dir "data" then inr [a_txt; secret_txt; b_txt]
       else inl (OSError "No such file or directory"))
    (fun f => true)
    (fun f =>
       if String.eqb (name f) "secret.txt" then inl (OSError "Permission denied")
       else read sample_fs f).

(** A directory that holds hidden entries only. *)
Definition hidden_fs : FileSystem :=
  mkFileSystem
    (fun dir => inr [dot_git; mkPath ".env" "data/.env"])
    (is_file sample_fs)
    (read sample_fs).

(** A directory with something that is no regular file after a first file. *)
Definition nested_fs : FileSystem :=
  mkFileSystem
    (fun dir => inr [a_txt; mkPath "sub" "data/sub"; mkPath "tmp" "data/tmp"])
    (is_file sample_fs)
    (read sample_fs).

End SimpleDirectoryReader.

(** ** The keyword mocks ([tests/mock_utils/mock_utils.py]) *)

Module MockUtils.

Section Mocks.

(** [simple_extract_keywords] of [gpt_index.indices.keyword_table.utils] is
    imported by the mocks and not part of the sources at hand; the mocks are
    stated for any such function.  Its result, a Python set of strings, is
    a finite set together with the order in which [",".join] walks it. *)
Variable simple_extract_keywords :
  string -> option nat -> bool -> gset string.
Variable iteration_order : gset string -> list string.

(** [mock_extract_keywords(text_chunk, max_keywords, filter_stopwords)]. *)
Definition mock_extract_keywords (text_chunk : string)
    (max_keywords : option nat) (filter_stopwords : bool) : gset string :=
  simple_extract_keywords text_chunk max_keywords false.

(** [mock_extract_keywords_response(text_chunk, max_keywords,
    filter_stopwords)]. *)
Definition mock_extract_keywords_response (text_chunk : string)
    (max_keywords : option nat) (filter_stopwords : bool) : string :=
  join "," (iteration_order
              (simple_extract_keywords text_chunk max_keywords false)).

End Mocks.

End MockUtils.

(** * Properties of the Slack reader *)

Module SlackReaderFacts.
Import SlackReader.

(** ** The trace monad *)

Lemma bind_Ret {A B} (a : A) (t : Trace) (k : A -> M B) :
  bind (Ret a, t) k = after t (k a).
Proof. unfold bind, after. destruct (k a); reflexivity. Qed.

Lemma bind_Raise {A B} (e : exn) (t : Trace) (k : A -> M B) :
  bind (Raise e, t) k = (Raise e, t).
Proof. reflexivity. Qed.

Lemma bind_Timeout {A B} (t : Trace) (k : A -> M B) :
  bind (Timeout, t) k = (Timeout, t).
Proof. reflexivity. Qed.

Lemma call_Ok {A} (ev : Event) (a : A) : call ev (Ok a) = (Ret a, [ev]).
Proof. reflexivity. Qed.

Lemma call_Fail {A} (ev : Event) (e : exn) :
  call ev (@Fail A e) = (Raise e, [ev]).
Proof. reflexivity. Qed.

Lemma fst_after {A} (t : Trace) (m : M A) : fst (after t m) = fst m.
Proof. reflexivity. Qed.

Lemma snd_after {A} (t : Trace) (m : M A) : snd (after t m) = t ++ snd m.
Proof. reflexivity. Qed.

Lemma fst_bind_Ret {A B} (m : M A) (k : A -> M B) (a : A) :
  fst m = Ret a -> fst (bind m k) = fst (k a).
Proof.
  destruct m as [o t]. intros H. simpl in H. subst o.
  rewrite bind_Ret. apply fst_after.
Qed.

(** A bind that did not time out had a first part that did not. *)
Lemma bind_not_Timeout {A B} (m : M A) (k : A -> M B) :
  fst (bind m k) <> Timeout -> fst m <> Timeout.
Proof. destruct m as [[a|e|] t]; simpl; congruence. Qed.

Lemma bind_congr {A B} (m m' : M A) (k k' : A -> M B) :
  m = m' -> (forall a, fst m = Ret a -> k a = k' a) -> bind m k = bind m' k'.
Proof.
  intros <- Hk. destruct m as [[a|e|] t]; try reflexivity.
  rewrite !bind_Ret, (Hk a); reflexivity.
Qed.

(** ** Fuel

    A run that came to an end (returned or raised) comes to the same end,
    with the same trace, on any larger fuel, and on any client that answers
    the same. *)

Section Fuel.

Variables c1 c2 : WebClient.
Hypothesis Hsame : same_responses c1 c2.

Lemma _read_message_loop_mono n m channel message_ts acc cursor :
  n <= m ->
  fst (_read_message_loop n (mkReader c1) channel message_ts acc cursor)
    <> Timeout ->
  _read_message_loop m (mkReader c2) channel message_ts acc cursor
  = _read_message_loop n (mkReader c1) channel message_ts acc cursor.
Proof.
  revert m acc cursor.
  induction n as [|n IH]; intros m acc cursor Hle Hnt.
  - simpl in Hnt. congruence.
  - destruct m as [|m]; [lia|].
    cbn [_read_message_loop client] in *.
    destruct Hsame as [_ Hr]. rewrite <- Hr.
    destruct (conversations_replies c1 channel message_ts cursor) as [p|e].
    + rewrite call_Ok, bind_Ret in Hnt. rewrite !call_Ok, !bind_Ret.
      destruct (negb (has_more p)); [reflexivity|].
      destruct (next_cursor p) as [c|]; [|reflexivity].
      f_equal. apply IH; [lia|]. exact Hnt.
    + reflexivity.
Qed.

Lemma _read_message_mono n m channel message_ts :
  n <= m ->
  fst (_read_message n (mkReader c1) channel message_ts) <> Timeout ->
  _read_message m (mkReader c2) channel message_ts
  = _read_message n (mkReader c1) channel message_ts.
Proof.
  intros Hle Hnt. unfold _read_message in *.
  apply bind_not_Timeout in Hnt.
  rewrite (_read_message_loop_mono n m); auto.
Qed.

Lemma append_threads_mono n m channel history acc :
  n <= m ->
  fst (fst (append_threads n (mkReader c1) channel history acc)) <> Timeout ->
  append_threads m (mkReader c2) channel history acc
  = append_threads n (mkReader c1) channel history acc.
Proof.
  intros Hle. revert acc.
  induction history as [|message rest IH]; intros acc Hnt; [reflexivity|].
  cbn [append_threads] in *.
  destruct (_read_message n (mkReader c1) channel (ts message))
    as [[s|e|] t] eqn:E.
  - rewrite (_read_message_mono n m), E by (auto; rewrite E; discriminate).
    destruct (append_threads n (mkReader c1) channel rest (acc ++ [s]))
      as [mm acc'] eqn:E'.
    rewrite IH, E'; [reflexivity|]. rewrite E' in *. exact Hnt.
  - rewrite (_read_message_mono n m), E by (auto; rewrite E; discriminate).
    reflexivity.
  - simpl in Hnt. congruence.
Qed.

Lemma _read_channel_loop_mono n m channel acc cursor :
  n <= m ->
  fst (_read_channel_loop n (mkReader c1) channel acc cursor) <> Timeout ->
  _read_channel_loop m (mkReader c2) channel acc cursor
  = _read_channel_loop n (mkReader c1) channel acc cursor.
Proof.
  revert m acc cursor.
  induction n as [|n IH]; intros m acc cursor Hle Hnt.
  - simpl in Hnt. congruence.
  - destruct m as [|m]; [lia|].
    cbn [_read_channel_loop client] in *.
    destruct Hsame as [Hh _]. rewrite <- !Hh.
    destruct (conversations_history c1 channel cursor) as [p0|e0];
      [|reflexivity].
    rewrite call_Ok, bind_Ret in Hnt. rewrite call_Ok, !bind_Ret.
    f_equal. rewrite fst_after in Hnt.
    destruct (conversations_history c1 channel None) as [p|e].
    + rewrite call_Ok in *.
      destruct (append_threads n (mkReader c1) channel (messages p) acc)
        as [[[u|e|] t3] acc'] eqn:E.
      * rewrite (append_threads_mono n m), E
          by (try lia; rewrite E; discriminate).
        rewrite fst_after in Hnt.
        destruct (negb (has_more p)); [reflexivity|].
        destruct (next_cursor p) as [c|]; [|reflexivity].
        f_equal. apply IH; [lia|exact Hnt].
      * rewrite (append_threads_mono n m), E
          by (try lia; rewrite E; discriminate).
        destruct (is_SlackApiError e); [|reflexivity].
        rewrite fst_after in Hnt.
        f_equal. apply IH; [lia|exact Hnt].
      * simpl in Hnt. congruence.
    + rewrite call_Fail in *.
      destruct (is_SlackApiError e); [|reflexivity].
      rewrite fst_after in Hnt.
      f_equal. apply IH; [lia|exact Hnt].
Qed.

Lemma _read_channel_mono n m channel :
  n <= m ->
  fst (_read_channel n (mkReader c1) channel) <> Timeout ->
  _read_channel m (mkReader c2) channel
  = _read_channel n (mkReader c1) channel.
Proof.
  intros Hle Hnt. unfold _read_channel in *.
  apply bind_not_Timeout in Hnt.
  rewrite (_read_channel_loop_mono n m); auto.
Qed.

Lemma load_channels_mono n m channel_ids results :
  n <= m ->
  fst (load_channels n (mkReader c1) channel_ids results) <> Timeout ->
  load_channels m (mkReader c2) channel_ids results
  = load_channels n (mkReader c1) channel_ids results.
Proof.
  intros Hle. revert results.
  induction channel_ids as [|channel_id rest IH]; intros results Hnt;
    [reflexivity|].
  cbn [load_channels] in *.
  rewrite (_read_channel_mono n m) by (eauto using bind_not_Timeout).
  apply bind_congr; [reflexivity|].
  intros content Hc. apply IH.
  destruct (_read_channel n (mkReader c1) channel_id) as [o t].
  simpl in Hc. subst o. rewrite bind_Ret, fst_after in Hnt. exact Hnt.
Qed.

Lemma load_data_mono n m load_kwargs :
  n <= m ->
  fst (load_data n (mkReader c1) load_kwargs) <> Timeout ->
  load_data m (mkReader c2) load_kwargs
  = load_data n (mkReader c1) load_kwargs.
Proof.
  intros Hle Hnt. unfold load_data in *.
  destruct (default None (load_kwargs !! "channel_ids")) as [channel_ids|];
    [|reflexivity].
  apply load_channels_mono; assumption.
Qed.

End Fuel.

Lemma same_responses_refl c : same_responses c c.
Proof. split; reflexivity. Qed.

Lemma same_responses_sym c1 c2 : same_responses c1 c2 -> same_responses c2 c1.
Proof. intros [H1 H2]; split; intros; symmetry; auto. Qed.

(** ** One document a channel *)

Lemma load_channels_documents fuel self channel_ids results docs :
  fst (load_channels fuel self channel_ids results) = Ret docs ->
  exists new,
    docs = results ++ new /\ Forall2 (document_of fuel self) channel_ids new.
Proof.
  revert results.
  induction channel_ids as [|channel_id rest IH]; intros results H.
  - simpl in H. injection H as <-. exists []. split.
    + symmetry. apply app_nil_r.
    + constructor.
  - cbn [load_channels] in H.
    destruct (_read_channel fuel self channel_id) as [[content|e|] t] eqn:E;
      [|discriminate H|discriminate H].
    rewrite bind_Ret, fst_after in H.
    destruct (IH _ H) as (new & -> & Hnew).
    exists (mkDocument content (Some {[ "channel" := channel_id ]}) :: new).
    split.
    + rewrite <- app_assoc. reflexivity.
    + constructor; [|exact Hnew].
      split; [rewrite E|]; reflexivity.
Qed.

(** Channels that can each be read on some fuel can all be read on one. *)
Lemma completes_uniform c channel_ids :
  (forall channel, In channel channel_ids -> completes c channel) ->
  exists fuel, forall channel fuel',
    In channel channel_ids -> fuel <= fuel' ->
    exists content, fst (_read_channel fuel' (mkReader c) channel) = Ret content.
Proof.
  induction channel_ids as [|channel_id rest IH]; intros H.
  - exists 0. intros ? ? [].
  - destruct IH as [N HN]; [intros; apply H; right; assumption|].
    destruct (H channel_id) as (n & content & Hn); [left; reflexivity|].
    exists (Nat.max n N). intros channel fuel' [<-|Hin] Hle.
    + exists content.
      rewrite (_read_channel_mono c c (same_responses_refl c) n fuel');
        [exact Hn|lia|rewrite Hn; discriminate].
    + apply HN; [exact Hin|lia].
Qed.

Lemma load_channels_returns fuel self channel_ids results :
  (forall channel, In channel channel_ids ->
     exists content, fst (_read_channel fuel self channel) = Ret content) ->
  exists docs, fst (load_channels fuel self channel_ids results) = Ret docs.
Proof.
  revert results.
  induction channel_ids as [|channel_id rest IH]; intros results H.
  - exists results. reflexivity.
  - cbn [load_channels].
    destruct (H channel_id) as [content Hc]; [left; reflexivity|].
    rewrite (fst_bind_Ret _ _ content Hc).
    apply IH. intros; apply H; right; assumption.
Qed.

(** ** Threads *)

Lemma _read_message_loop_thread c channel message_ts cursor pages :
  thread_pages c channel message_ts cursor pages ->
  forall fuel acc,
    length pages <= fuel ->
    _read_message_loop fuel (mkReader c) channel message_ts acc cursor
    = (Ret (acc ++ map text (records pages)),
       thread_calls channel message_ts cursor pages).
Proof.
  induction 1 as [cursor p Hp Hmore|cursor p next pages Hp Hmore Hnext _ IH];
    intros fuel acc Hfuel; (destruct fuel as [|fuel]; [simpl in Hfuel; lia|]);
    cbn [_read_message_loop client]; rewrite Hp, call_Ok, bind_Ret, Hmore;
    cbn [negb].
  - unfold records. cbn [flat_map]. rewrite app_nil_r. reflexivity.
  - rewrite Hnext, IH by (simpl in Hfuel; lia).
    unfold after, records. cbn [flat_map thread_calls fst snd app].
    rewrite Hnext, map_app, app_assoc. reflexivity.
Qed.

Lemma _read_message_thread c channel message_ts pages fuel :
  thread_pages c channel message_ts None pages ->
  length pages <= fuel ->
  _read_message fuel (mkReader c) channel message_ts
  = (Ret (thread_text pages), thread_calls channel message_ts None pages).
Proof.
  intros Hpages Hfuel. unfold _read_message.
  rewrite (_read_message_loop_thread _ _ _ _ _ Hpages) by exact Hfuel.
  rewrite bind_Ret. unfold after, ret, thread_text.
  cbn [fst snd app]. rewrite app_nil_r. reflexivity.
Qed.

(** The threads of the messages of a page, read one after the other. *)
Lemma append_threads_threads c channel fuel history threads :
  Forall2 (fun message pages =>
             thread_pages c channel (ts message) None pages) history threads ->
  Forall (fun pages => length pages <= fuel) threads ->
  forall acc,
    exists t,
      append_threads fuel (mkReader c) channel history acc
      = ((Ret tt, t), acc ++ map thread_text threads).
Proof.
  induction 1 as [|message pages history threads Hpages _ IH];
    intros Hfuel acc.
  - exists []. cbn. rewrite app_nil_r. reflexivity.
  - apply Forall_cons_1 in Hfuel as [Hlen Hfuel].
    cbn [append_threads].
    rewrite (_read_message_thread _ _ _ _ _ Hpages Hlen).
    destruct (IH Hfuel (acc ++ [thread_text pages])) as [t Ht].
    rewrite Ht. eexists. unfold after. cbn [fst snd map].
    rewrite <- app_assoc. reflexivity.
Qed.

(** A history of one page whose threads are all served: the body is the
    thread texts, in the order of their anchors, a blank line between. *)
Lemma _read_channel_single_page c channel p threads fuel :
  conversations_history c channel None = Ok p ->
  has_more p = false ->
  Forall2 (fun message pages =>
             thread_pages c channel (ts message) None pages)
          (messages p) threads ->
  Forall (fun pages => length pages <= fuel) threads ->
  fst (_read_channel (S fuel) (mkReader c) channel)
  = Ret (join nlnl (map thread_text threads)).
Proof.
  intros Hp Hmore Hthreads Hfuel.
  unfold _read_channel. cbn [_read_channel_loop client].
  rewrite Hp, !call_Ok, bind_Ret.
  destruct (append_threads_threads _ _ _ _ _ Hthreads Hfuel []) as [t Ht].
  rewrite Ht, Hmore. reflexivity.
Qed.

Lemma lengths_bounded (threads : list (list Page)) :
  Forall (fun pages => length pages <= list_max (map length threads)) threads.
Proof.
  pose proof (proj1 (list_max_le (map length threads) _) (le_n _)) as H.
  rewrite Forall_map in H. exact H.
Qed.

Lemma fst_bind_Raise {A B} (m : M A) (k : A -> M B) (e : exn) :
  fst m = Raise e -> fst (bind m k) = Raise e.
Proof. destruct m as [o t]. intros H. simpl in H. subst o. reflexivity. Qed.

Lemma fst_bind_Ret_inv {A B} (m : M A) (k : A -> M B) (b : B) :
  fst (bind m k) = Ret b -> exists a, fst m = Ret a.
Proof.
  destruct m as [[a|e|] t]; intros H; try discriminate H. exists a. reflexivity.
Qed.

(** ** Channels of more than one page *)

(** No round of the loop leaves it once the page that
    [conversations_history] serves without a cursor says [has_more]. *)
Lemma _read_channel_loop_never_returns c channel p :
  conversations_history c channel None = Ok p ->
  has_more p = true ->
  forall fuel acc cursor result_messages,
    fst (_read_channel_loop fuel (mkReader c) channel acc cursor)
    <> Ret result_messages.
Proof.
  intros Hp Hmore.
  induction fuel as [|fuel IH]; intros acc cursor result_messages.
  - discriminate.
  - cbn [_read_channel_loop client].
    destruct (conversations_history c channel cursor) as [p0|e0];
      [|discriminate].
    rewrite call_Ok, bind_Ret, fst_after, Hp, call_Ok.
    destruct (append_threads fuel (mkReader c) channel (messages p) acc)
      as [[[u|e|] t3] acc'].
    + rewrite fst_after, Hmore. cbn [negb].
      destruct (next_cursor p); [apply IH|discriminate].
    + destruct (is_SlackApiError e); [|discriminate].
      rewrite fst_after. apply IH.
    + discriminate.
Qed.

(** ** The ingestion operation *)

Lemma load_data_documents fuel self load_kwargs channel_ids docs :
  load_kwargs !! "channel_ids" = Some (Some channel_ids) ->
  fst (load_data fuel self load_kwargs) = Ret docs ->
  Forall2 (document_of fuel self) channel_ids docs.
Proof.
  unfold load_data. intros -> H. cbn [default] in H.
  destruct (load_channels_documents _ _ _ _ _ H) as (new & -> & Hnew).
  exact Hnew.
Qed.

(** C3: for every collection of channel ids, whenever [load_data] returns
    it returns exactly one document a channel id, in the order of the ids;
    the body of each is what the read of its channel returns and its extra
    info is exactly the entry from ["channel"] to the channel id.  And it
    does return, on enough fuel, when each of the channels can be read to the
    end.  The collection need not be non-empty. *)
Theorem load_data_one_document_per_channel c load_kwargs channel_ids :
  load_kwargs !! "channel_ids" = Some (Some channel_ids) ->
  (forall fuel docs,
      fst (load_data fuel (mkReader c) load_kwargs) = Ret docs ->
      length docs = length channel_ids /\
      Forall2 (document_of fuel (mkReader c)) channel_ids docs) /\
  ((forall channel, In channel channel_ids -> completes c channel) ->
   exists fuel, forall fuel',
     fuel <= fuel' ->
     returned (fst (load_data fuel' (mkReader c) load_kwargs)) = true).
Proof.
  intros Hkw. split.
  - intros fuel docs Hld.
    pose proof (load_data_documents _ _ _ _ _ Hkw Hld) as HF.
    split; [|exact HF]. symmetry. exact (Forall2_length _ _ _ HF).
  - intros Hall.
    destruct (completes_uniform c channel_ids Hall) as [fuel Hfuel].
    exists fuel. intros fuel' Hle.
    destruct (load_channels_returns fuel' (mkReader c) channel_ids [])
      as [docs Hdocs].
    { intros channel Hin. apply Hfuel; assumption. }
    assert (Hld : load_data fuel' (mkReader c) load_kwargs
                  = load_channels fuel' (mkReader c) channel_ids []).
    { unfold load_data. rewrite Hkw. reflexivity. }
    rewrite Hld, Hdocs. reflexivity.
Qed.

Lemma load_data_one_document_per_channel_witness :
  (forall fuel docs,
      fst (load_data fuel (mkReader single_page_client)
                     (kwargs_channel_ids ["C1"])) = Ret docs ->
      length docs = length ["C1"] /\
      Forall2 (document_of fuel (mkReader single_page_client)) ["C1"] docs) /\
  exists fuel, forall fuel',
    fuel <= fuel' ->
    returned (fst (load_data fuel' (mkReader single_page_client)
                             (kwargs_channel_ids ["C1"]))) = true.
Proof.
  destruct (load_data_one_document_per_channel single_page_client
              (kwargs_channel_ids ["C1"]) ["C1"]) as [Hshape Hreturns].
  - vm_compute. reflexivity.
  - split; [exact Hshape|]. apply Hreturns.
    intros channel [<-|[]]. exists 3. eexists. vm_compute. reflexivity.
Defined.

(** C8: two runs of [load_data] over the same keyword arguments, against
    clients that answer every page request alike, that both come to an end
    (each on its own fuel) come to the same end: the same documents, bodies
    and extra info, or the same exception, after the same calls and log
    records. *)
Theorem load_data_deterministic c1 c2 fuel1 fuel2 load_kwargs :
  same_responses c1 c2 ->
  fst (load_data fuel1 (mkReader c1) load_kwargs) <> Timeout ->
  fst (load_data fuel2 (mkReader c2) load_kwargs) <> Timeout ->
  load_data fuel1 (mkReader c1) load_kwargs
  = load_data fuel2 (mkReader c2) load_kwargs.
Proof.
  intros Hsame H1 H2.
  destruct (Nat.le_ge_cases fuel1 fuel2) as [Hle|Hle].
  - symmetry. apply load_data_mono; assumption.
  - apply load_data_mono; [apply same_responses_sym| |]; assumption.
Qed.

Lemma load_data_deterministic_witness :
  load_data 3 (mkReader single_page_client) (kwargs_channel_ids ["C1"])
  = load_data 8 (mkReader single_page_client) (kwargs_channel_ids ["C1"]).
Proof.
  apply load_data_deterministic.
  - split; reflexivity.
  - vm_compute. discriminate.
  - vm_compute. discriminate.
Defined.

(** C5, as the code has it: when the channel ids are absent ([None], the
    default of a missing keyword) [load_data] raises the [ValueError], and
    when they are the empty list it returns the empty list of documents and
    raises nothing; in both cases no remote call is made and no document is
    produced. *)
Theorem load_data_without_channel_ids fuel self load_kwargs :
  (default None (load_kwargs !! "channel_ids") = None ->
   load_data fuel self load_kwargs
   = (Raise (ValueError must_specify_channel_id), [])) /\
  (default None (load_kwargs !! "channel_ids") = Some [] ->
   load_data fuel self load_kwargs = (Ret [], [])).
Proof.
  unfold load_data. split; intros ->; reflexivity.
Qed.

Lemma load_data_without_channel_ids_witness :
  load_data 5 (mkReader single_page_client) ∅
  = (Raise (ValueError must_specify_channel_id), []) /\
  load_data 5 (mkReader single_page_client) (kwargs_channel_ids [])
  = (Ret [], []).
Proof.
  split.
  - apply (load_data_without_channel_ids 5 (mkReader single_page_client) ∅).
    vm_compute. reflexivity.
  - apply (load_data_without_channel_ids 5 (mkReader single_page_client)
             (kwargs_channel_ids [])).
    vm_compute. reflexivity.
Defined.

(** C5, as stated, fails: on the empty list of channel ids no error is
    raised. *)
Lemma load_data_empty_channel_ids_no_error :
  ~ (forall fuel self load_kwargs,
        default None (load_kwargs !! "channel_ids") = None \/
        default None (load_kwargs !! "channel_ids") = Some [] ->
        exists e, fst (load_data fuel self load_kwargs) = Raise e).
Proof.
  intros H.
  destruct (H 5 (mkReader single_page_client) (kwargs_channel_ids []))
    as [e He].
  - right. vm_compute. reflexivity.
  - vm_compute in He. discriminate He.
Qed.

(** C6, what the code does: with [slack_sdk] installed, no token argument
    and no [SLACK_BOT_TOKEN] in the environment, the constructor raises
    [KeyError], not the [ValueError] its own next lines prepare, before any
    remote call. *)
Theorem init_without_token_raises_KeyError WebClient_ environ :
  environ !! "SLACK_BOT_TOKEN" = None ->
  __init__ (Some WebClient_) environ None
  = (Raise (KeyError "SLACK_BOT_TOKEN"), []).
Proof.
  intros H. unfold __init__. rewrite H. reflexivity.
Qed.

Lemma init_without_token_raises_KeyError_witness :
  __init__ (Some (fun _ => single_page_client)) ∅ None
  = (Raise (KeyError "SLACK_BOT_TOKEN"), []).
Proof.
  apply init_without_token_raises_KeyError. vm_compute. reflexivity.
Defined.

(** C2, what the code does: a channel whose first history page says
    [has_more] is never read to the end.  Every round asks for the page
    behind the cursor, drops the response, asks again without a cursor and
    reads the first page once more; [has_more] is true again, and no fuel
    makes [_read_channel] return. *)
Theorem multi_page_channel_never_returns c channel p :
  conversations_history c channel None = Ok p ->
  has_more p = true ->
  forall fuel,
    returned (fst (_read_channel fuel (mkReader c) channel)) = false.
Proof.
  intros Hp Hmore fuel.
  destruct (fst (_read_channel fuel (mkReader c) channel))
    as [content| |] eqn:H; try reflexivity.
  unfold _read_channel in H.
  apply fst_bind_Ret_inv in H as [result_messages H].
  destruct (_read_channel_loop_never_returns c channel p Hp Hmore _ _ _ _ H).
Qed.

Lemma multi_page_channel_never_returns_witness :
  returned (fst (_read_channel 6 (mkReader two_page_client) "C1")) = false.
Proof.
  apply (multi_page_channel_never_returns two_page_client "C1"
           (mkPage [anchor; second] true (Some "c1"))); reflexivity.
Defined.

(** The first three rounds on the two-page sample: the second page is asked
    for at the start of each round but the first (the calls with the cursor
    ["c1"]) and never read; the threads of the first page are read again in
    each round. *)
Lemma two_page_client_rounds :
  List.filter
    (fun ev => match ev with Call_history _ _ => true | _ => false end)
    (snd (_read_channel 4 (mkReader two_page_client) "C1"))
  = [Call_history "C1" None; Call_history "C1" None;
     Call_history "C1" (Some "c1"); Call_history "C1" None;
     Call_history "C1" (Some "c1"); Call_history "C1" None].
Proof. vm_compute. reflexivity. Qed.

(** C1, what the code does: when the first history page is served, says
    [has_more] and names a cursor, the threads of its messages are served,
    and the request for the page behind the cursor fails with [e], then [e]
    reaches the caller of [_read_channel] and of [load_data]: the request
    with the cursor stands before the [try], so nothing catches it, and no
    document is returned. *)
Theorem second_page_failure_reaches_caller c channel p next e threads :
  conversations_history c channel None = Ok p ->
  has_more p = true ->
  next_cursor p = Some next ->
  conversations_history c channel (Some next) = Fail e ->
  Forall2 (fun message pages =>
             thread_pages c channel (ts message) None pages)
          (messages p) threads ->
  exists fuel, forall fuel',
    fuel <= fuel' ->
    fst (_read_channel fuel' (mkReader c) channel) = Raise e /\
    fst (load_data fuel' (mkReader c) (kwargs_channel_ids [channel]))
    = Raise e.
Proof.
  intros Hp Hmore Hnext Hfail Hthreads.
  exists (S (S (list_max (map length threads)))). intros fuel' Hle.
  destruct fuel' as [|[|fuel]]; [lia|lia|].
  assert (Hfuel : Forall (fun pages => length pages <= S fuel) threads).
  { eapply Forall_impl; [apply lengths_bounded|]. cbn beta. intros; lia. }
  assert (Hrc : fst (_read_channel (S (S fuel)) (mkReader c) channel)
                = Raise e).
  { unfold _read_channel. apply fst_bind_Raise.
    cbn [_read_channel_loop client].
    rewrite Hp, !call_Ok, bind_Ret, fst_after.
    destruct (append_threads_threads _ _ _ _ _ Hthreads Hfuel []) as [t Ht].
    rewrite Ht, Hmore, Hnext, Hfail, call_Fail. reflexivity. }
  split; [exact Hrc|].
  unfold load_data, kwargs_channel_ids. rewrite lookup_singleton_eq.
  cbn [default load_channels]. apply fst_bind_Raise. exact Hrc.
Qed.

Lemma second_page_failure_reaches_caller_witness :
  exists fuel, forall fuel',
    fuel <= fuel' ->
    fst (_read_channel fuel' (mkReader failing_second_page_client) "C1")
    = Raise (SlackApiError "ratelimited") /\
    fst (load_data fuel' (mkReader failing_second_page_client)
                   (kwargs_channel_ids ["C1"]))
    = Raise (SlackApiError "ratelimited").
Proof.
  apply (second_page_failure_reaches_caller failing_second_page_client "C1"
           (mkPage [anchor; second] true (Some "c1")) "c1"
           (SlackApiError "ratelimited")
           [[mkPage [anchor; reply1] true (Some "t1");
             mkPage [reply2] false None];
            [mkPage [second] false None]]);
    try reflexivity.
  repeat constructor.
  eapply thread_more; [reflexivity|reflexivity|reflexivity|].
  constructor; reflexivity.
Defined.

(** C4: for every anchor message whose thread is served without error, with
    the anchor as its first record, [_read_message] returns, on enough fuel,
    the texts of the records of the thread joined by ["\n\n"] in fetch order,
    the text of the anchor first; and for a history of one page whose threads
    are all served, [_read_channel] returns, on enough fuel, these thread
    texts joined by ["\n\n"], each at the position of its anchor. *)
Theorem thread_text_at_anchor_position c channel :
  (forall message_ts pages first replies,
      thread_pages c channel message_ts None pages ->
      records pages = first :: replies ->
      exists fuel, forall fuel',
        fuel <= fuel' ->
        fst (_read_message fuel' (mkReader c) channel message_ts)
        = Ret (join nlnl (text first :: map text replies))) /\
  (forall p threads,
      conversations_history c channel None = Ok p ->
      has_more p = false ->
      Forall2 (fun message pages =>
                 thread_pages c channel (ts message) None pages)
              (messages p) threads ->
      exists fuel, forall fuel',
        fuel <= fuel' ->
        fst (_read_channel fuel' (mkReader c) channel)
        = Ret (join nlnl (map thread_text threads)) /\
        Forall2 (fun message thread =>
                   fst (_read_message fuel' (mkReader c) channel (ts message))
                   = Ret thread)
                (messages p) (map thread_text threads)).
Proof.
  split.
  - intros message_ts pages first replies Hpages Hrecords.
    exists (length pages). intros fuel' Hle.
    rewrite (_read_message_thread _ _ _ _ _ Hpages Hle).
    unfold thread_text. rewrite Hrecords. reflexivity.
  - intros p threads Hp Hmore Hthreads.
    exists (S (list_max (map length threads))). intros fuel' Hle.
    destruct fuel' as [|fuel]; [lia|].
    assert (Hfuel : Forall (fun pages => length pages <= fuel) threads).
    { eapply Forall_impl; [apply lengths_bounded|]. cbn beta. intros; lia. }
    split.
    + apply (_read_channel_single_page _ _ _ _ _ Hp Hmore Hthreads Hfuel).
    + clear Hp Hmore Hle.
      induction Hthreads as [|message pages ms ths H _ IH].
      * constructor.
      * apply Forall_cons_1 in Hfuel as [Hlen Hfuel].
        cbn [map]. constructor; [|apply IH; exact Hfuel].
        rewrite (_read_message_thread _ _ _ _ _ H) by lia. reflexivity.
Qed.

Lemma thread_text_at_anchor_position_witness :
  (exists fuel, forall fuel',
      fuel <= fuel' ->
      fst (_read_message fuel' (mkReader single_page_client) "C1" "1.0")
      = Ret (join nlnl ["hello"; "hi"; "welcome"])) /\
  (exists fuel, forall fuel',
      fuel <= fuel' ->
      fst (_read_channel fuel' (mkReader single_page_client) "C1")
      = Ret (join nlnl [join nlnl ["hello"; "hi"; "welcome"];
                        "standup at ten"; "lunch"]) /\
      Forall2 (fun message thread =>
                 fst (_read_message fuel' (mkReader single_page_client) "C1"
                                    (ts message))
                 = Ret thread)
              [anchor; second; third]
              [join nlnl ["hello"; "hi"; "welcome"];
               "standup at ten"; "lunch"]).
Proof.
  assert (Hanchor : thread_pages single_page_client "C1" "1.0" None
                      [mkPage [anchor; reply1] true (Some "t1");
                       mkPage [reply2] false None]).
  { eapply thread_more; [reflexivity|reflexivity|reflexivity|].
    constructor; reflexivity. }
  destruct (thread_text_at_anchor_position single_page_client "C1")
    as [Hthread Hchannel].
  split.
  - apply (Hthread "1.0" _ anchor [reply1; reply2] Hanchor). reflexivity.
  - apply (Hchannel (mkPage [anchor; second; third] false None)
             [[mkPage [anchor; reply1] true (Some "t1");
               mkPage [reply2] false None];
              [mkPage [second] false None];
              [mkPage [third] false None]]); try reflexivity.
    repeat (constructor; [first [exact Hanchor|constructor; reflexivity]|]).
    constructor.
Defined.

End SlackReaderFacts.

(** * Properties of the directory reader *)

Module SimpleDirectoryReaderFacts.
Import SimpleDirectoryReader.

Lemma check_files_all_files fs input_files :
  Forall (fun f => is_file fs f = true) input_files ->
  check_files fs input_files = Ret tt.
Proof.
  induction 1 as [|f rest Hf _ IH]; [reflexivity|].
  cbn [check_files]. rewrite Hf. exact IH.
Qed.

Lemma check_files_some_non_file fs input_files :
  Exists (fun f => is_file fs f = false) input_files ->
  exists f,
    In f input_files /\ is_file fs f = false /\
    check_files fs input_files = Raise (ValueError (expected_file f)).
Proof.
  induction input_files as [|g rest IH]; intros H.
  - inversion H.
  - cbn [check_files]. destruct (is_file fs g) eqn:Hg.
    + destruct IH as (f & Hin & Hf & Hc).
      { inversion H; subst; [congruence|assumption]. }
      exists f. repeat split; [right; exact Hin|exact Hf|exact Hc].
    + exists g. repeat split; [left; reflexivity|exact Hg].
Qed.

Lemma check_files_Timeout fs input_files :
  check_files fs input_files <> Timeout.
Proof.
  induction input_files as [|g rest IH]; [discriminate|].
  cbn [check_files]. destruct (negb (is_file fs g)); [discriminate|exact IH].
Qed.

Lemma exclude_hidden_files_In input_files f :
  In f (exclude_hidden_files input_files) <->
  In f input_files /\ startswith (name f) "." = false.
Proof.
  unfold exclude_hidden_files. rewrite filter_In, negb_true_iff. reflexivity.
Qed.

(** C9: the rejection happens in the constructor.  With [kept] the entries
    of the directory that are left after the exclusion of hidden files (all
    of them when no exclusion is asked for), [__init__] returns the reader
    over [kept] when all of [kept] are regular files, and raises the
    [ValueError] naming an entry of [kept] that is no regular file when there
    is one; with the exclusion asked for, a directory whose only entries that
    are no regular files carry a dot prefix is accepted. *)
Theorem init_rejects_non_files fs input_dir (exclude_hidden : bool) entries :
  iterdir fs input_dir = inr entries ->
  let kept :=
    if exclude_hidden then exclude_hidden_files entries else entries in
  (Forall (fun f => is_file fs f = true) kept ->
   __init__ fs input_dir exclude_hidden = Ret (mkReader input_dir kept)) /\
  (Exists (fun f => is_file fs f = false) kept ->
   exists f,
     In f kept /\ is_file fs f = false /\
     __init__ fs input_dir exclude_hidden
     = Raise (ValueError (expected_file f))) /\
  (exclude_hidden = true ->
   (forall f, In f entries -> is_file fs f = false ->
              startswith (name f) "." = true) ->
   __init__ fs input_dir exclude_hidden
   = Ret (mkReader input_dir (exclude_hidden_files entries))).
Proof.
  intros Hdir kept.
  assert (Hall : Forall (fun f => is_file fs f = true) kept ->
                 __init__ fs input_dir exclude_hidden
                 = Ret (mkReader input_dir kept)).
  { intros H. unfold __init__. rewrite Hdir. fold kept.
    rewrite (check_files_all_files _ _ H). reflexivity. }
  split; [exact Hall|split].
  - intros H. destruct (check_files_some_non_file _ _ H) as (f & Hin & Hf & Hc).
    exists f. repeat split; [exact Hin|exact Hf|].
    unfold __init__. rewrite Hdir. fold kept. rewrite Hc. reflexivity.
  - intros -> Hdots. apply Hall. subst kept. cbn iota.
    apply List.Forall_forall. intros f Hin.
    apply exclude_hidden_files_In in Hin as [Hin Hdot].
    destruct (is_file fs f) eqn:Hf; [reflexivity|].
    rewrite (Hdots f Hin Hf) in Hdot. discriminate Hdot.
Qed.

Lemma init_rejects_non_files_witness :
  __init__ sample_fs "data" true = Ret (mkReader "data" [a_txt; b_txt]) /\
  exists f,
    In f [dot_git; a_txt; b_txt] /\ is_file sample_fs f = false /\
    __init__ sample_fs "data" false = Raise (ValueError (expected_file f)).
Proof.
  split.
  - apply (init_rejects_non_files sample_fs "data" true
             [dot_git; a_txt; b_txt]); [reflexivity|reflexivity|].
    intros f [<-|[<-|[<-|[]]]]; vm_compute; congruence.
  - apply (init_rejects_non_files sample_fs "data" false
             [dot_git; a_txt; b_txt]); [reflexivity|].
    constructor. reflexivity.
Defined.

(** ** Loading *)

Lemma read_files_contents fs input_files contents :
  Forall2 (fun f data => read fs f = inr data) input_files contents ->
  forall data_list,
    read_files fs input_files data_list = Ret (data_list ++ contents).
Proof.
  induction 1 as [|f data rest contents Hf _ IH]; intros data_list.
  - cbn. rewrite app_nil_r. reflexivity.
  - cbn [read_files]. rewrite Hf, IH, <- app_assoc. reflexivity.
Qed.

(** Files that can all be read: one document of the contents joined by a
    line break, in the order of the files, or one document a file. *)
Lemma load_data_contents fs self load_kwargs contents :
  Forall2 (fun f data => read fs f = inr data) (input_files self) contents ->
  load_data fs self load_kwargs
  = Ret (if default true (load_kwargs !! "concatenate")
         then [Document_of_text (join nl contents)]
         else map Document_of_text contents).
Proof.
  intros H. unfold load_data.
  rewrite (read_files_contents _ _ _ H). cbn [app].
  destruct (default true (load_kwargs !! "concatenate")); reflexivity.
Qed.

(** C7: for a directory whose enumeration yields [a.txt], which holds
    ["foo"], and then [b.txt], which holds ["bar"], both regular files, the
    reader built over it returns with [concatenate=True] exactly one document,
    of body ["foo\nbar"], and with [concatenate=False] exactly the two
    documents of bodies ["foo"] and ["bar"], in this order. *)
Theorem load_data_foo_bar fs input_dir exclude_hidden a b :
  iterdir fs input_dir = inr [a; b] ->
  name a = "a.txt" -> name b = "b.txt" ->
  is_file fs a = true -> is_file fs b = true ->
  read fs a = inr "foo" -> read fs b = inr "bar" ->
  exists self,
    __init__ fs input_dir exclude_hidden = Ret self /\
    load_data fs self {[ "concatenate" := true ]}
    = Ret [Document_of_text (String.append "foo" (String.append nl "bar"))] /\
    load_data fs self {[ "concatenate" := false ]}
    = Ret [Document_of_text "foo"; Document_of_text "bar"].
Proof.
  intros Hdir Ha Hb Hfa Hfb Hra Hrb.
  exists (mkReader input_dir [a; b]).
  assert (Hkept : (if exclude_hidden then exclude_hidden_files [a; b]
                   else [a; b]) = [a; b]).
  { destruct exclude_hidden; [|reflexivity].
    unfold exclude_hidden_files. cbn [List.filter]. rewrite Ha, Hb.
    reflexivity. }
  split; [|split].
  - unfold __init__. rewrite Hdir, Hkept. cbn [check_files].
    rewrite Hfa, Hfb. reflexivity.
  - rewrite (load_data_contents _ _ _ ["foo"; "bar"]);
      [rewrite lookup_singleton_eq; reflexivity|].
    repeat constructor; assumption.
  - rewrite (load_data_contents _ _ _ ["foo"; "bar"]);
      [rewrite lookup_singleton_eq; reflexivity|].
    repeat constructor; assumption.
Qed.

Lemma load_data_foo_bar_witness :
  exists self,
    __init__ foo_bar_fs "data" true = Ret self /\
    load_data foo_bar_fs self {[ "concatenate" := true ]}
    = Ret [Document_of_text (String.append "foo" (String.append nl "bar"))] /\
    load_data foo_bar_fs self {[ "concatenate" := false ]}
    = Ret [Document_of_text "foo"; Document_of_text "bar"].
Proof.
  apply (load_data_foo_bar foo_bar_fs "data" true a_txt b_txt); reflexivity.
Defined.

End SimpleDirectoryReaderFacts.

(** * Properties of the keyword mocks *)

Module MockUtilsFacts.
Import MockUtils.

(** C10: whatever [simple_extract_keywords] is, for every text chunk and
    every [max_keywords], [mock_extract_keywords] returns
    [simple_extract_keywords] applied with [filter_stopwords=False], whatever
    [filter_stopwords] it is given, and [mock_extract_keywords_response]
    returns the same set joined by commas. *)
Theorem mocks_ignore_filter_stopwords
    (simple_extract_keywords : string -> option nat -> bool -> gset string)
    (iteration_order : gset string -> list string)
    (text_chunk : string) (max_keywords : option nat)
    (filter_stopwords : bool) :
  mock_extract_keywords simple_extract_keywords
                        text_chunk max_keywords filter_stopwords
  = simple_extract_keywords text_chunk max_keywords false /\
  mock_extract_keywords simple_extract_keywords
                        text_chunk max_keywords filter_stopwords
  = mock_extract_keywords simple_extract_keywords
                          text_chunk max_keywords (negb filter_stopwords) /\
  mock_extract_keywords_response simple_extract_keywords iteration_order
                                 text_chunk max_keywords filter_stopwords
  = join "," (iteration_order
                (mock_extract_keywords simple_extract_keywords
                                       text_chunk max_keywords true)).
Proof. repeat split. Qed.

End MockUtilsFacts.

(** * Threads: what [_read_message] requests, returns and raises *)

Module SlackReaderThreads.
Import SlackReader SlackReaderFacts.

(** The rounds of the loop that a prefix of the thread accounts for. *)
Lemma _read_message_loop_prefix c channel message_ts cursor pages cursor' :
  thread_prefix c channel message_ts cursor pages cursor' ->
  forall fuel acc,
    _read_message_loop (length pages + fuel) (mkReader c) channel message_ts
                       acc cursor
    = after (thread_calls channel message_ts cursor pages)
        (_read_message_loop fuel (mkReader c) channel message_ts
           (acc ++ map text (records pages)) cursor').
Proof.
  induction 1 as [cursor|cursor p next pages cursor' Hp Hmore Hnext _ IH];
    intros fuel acc.
  - unfold after, records. cbn. rewrite app_nil_r.
    destruct (_read_message_loop fuel _ _ _ _ _). reflexivity.
  - cbn [length Nat.add _read_message_loop client].
    rewrite Hp, call_Ok, bind_Ret, Hmore, Hnext, IH. cbn [negb].
    unfold after, records. cbn [flat_map thread_calls fst snd app].
    rewrite Hnext, map_app, app_assoc. reflexivity.
Qed.

Lemma _read_message_loop_short c channel message_ts cursor pages cursor' :
  thread_prefix c channel message_ts cursor pages cursor' ->
  forall fuel acc,
    fuel <= length pages ->
    fst (_read_message_loop fuel (mkReader c) channel message_ts acc cursor)
    = Timeout.
Proof.
  intros H fuel acc Hle.
  pose proof (_read_message_loop_mono c c (same_responses_refl c)
                fuel (length pages + 0) channel message_ts acc cursor
                ltac:(lia)) as Hm.
  rewrite (_read_message_loop_prefix _ _ _ _ _ _ H) in Hm.
  destruct (fst (_read_message_loop fuel (mkReader c) channel message_ts
                                    acc cursor)) eqn:E; try reflexivity;
    specialize (Hm ltac:(discriminate));
    apply (f_equal fst) in Hm; rewrite fst_after, E in Hm;
    discriminate Hm.
Qed.

Lemma _read_message_loop_returns c channel message_ts :
  forall fuel acc cursor l,
    fst (_read_message_loop fuel (mkReader c) channel message_ts acc cursor)
    = Ret l ->
    exists pages,
      thread_pages c channel message_ts cursor pages /\ length pages <= fuel.
Proof.
  induction fuel as [|fuel IH]; intros acc cursor l H; [discriminate H|].
  cbn [_read_message_loop client] in H.
  destruct (conversations_replies c channel message_ts cursor) as [p|e] eqn:Hp;
    [|discriminate H].
  rewrite call_Ok, bind_Ret, fst_after in H.
  destruct (has_more p) eqn:Hmore; cbn [negb] in H.
  - destruct (next_cursor p) as [next|] eqn:Hnext; [|discriminate H].
    destruct (IH _ _ _ H) as (pages & Hpages & Hlen).
    exists (p :: pages). split.
    + eapply thread_more; eassumption.
    + simpl. lia.
  - exists [p]. split; [apply thread_last; assumption|simpl; lia].
Qed.

Lemma _read_message_returns c channel message_ts fuel content t :
  _read_message fuel (mkReader c) channel message_ts = (Ret content, t) ->
  exists pages,
    thread_pages c channel message_ts None pages /\
    length pages <= fuel /\
    content = thread_text pages /\
    t = thread_calls channel message_ts None pages.
Proof.
  intros H.
  assert (Hret : fst (_read_message fuel (mkReader c) channel message_ts)
                 = Ret content) by (rewrite H; reflexivity).
  unfold _read_message in Hret.
  apply fst_bind_Ret_inv in Hret as [l Hl].
  destruct (_read_message_loop_returns _ _ _ _ _ _ _ Hl)
    as (pages & Hpages & Hlen).
  exists pages.
  rewrite (_read_message_thread _ _ _ _ _ Hpages Hlen) in H.
  injection H as <- <-. repeat split; assumption.
Qed.

Lemma _read_message_loop_request_fails
    c channel message_ts start pages cursor e :
  thread_prefix c channel message_ts start pages cursor ->
  conversations_replies c channel message_ts cursor = Fail e ->
  forall fuel acc,
    length pages < fuel ->
    _read_message_loop fuel (mkReader c) channel message_ts acc start
    = (Raise e,
       thread_calls channel message_ts start pages
       ++ [Call_replies channel message_ts cursor]).
Proof.
  intros Hprefix Hfail fuel acc Hfuel.
  replace fuel with (length pages + S (fuel - length pages - 1)) by lia.
  rewrite (_read_message_loop_prefix _ _ _ _ _ _ Hprefix).
  cbn [_read_message_loop client]. rewrite Hfail, call_Fail. reflexivity.
Qed.

Lemma _read_message_loop_page_without_cursor
    c channel message_ts start pages cursor p :
  thread_prefix c channel message_ts start pages cursor ->
  conversations_replies c channel message_ts cursor = Ok p ->
  has_more p = true ->
  next_cursor p = None ->
  forall fuel acc,
    length pages < fuel ->
    _read_message_loop fuel (mkReader c) channel message_ts acc start
    = (Raise (KeyError "next_cursor"),
       thread_calls channel message_ts start pages
       ++ [Call_replies channel message_ts cursor]).
Proof.
  intros Hprefix Hp Hmore Hnext fuel acc Hfuel.
  replace fuel with (length pages + S (fuel - length pages - 1)) by lia.
  rewrite (_read_message_loop_prefix _ _ _ _ _ _ Hprefix).
  cbn [_read_message_loop client].
  rewrite Hp, call_Ok, bind_Ret, Hmore, Hnext. reflexivity.
Qed.

(** X1. [_read_message] returns exactly when the thread is served page after
    page, each page reached through the cursor of the one before, down to a
    page that does not say [has_more], within the fuel; it then returns the
    texts of all the records in fetch order, a blank line between, after one
    request a page: the first without a cursor, each later one with the
    cursor of the page before. *)
Theorem _read_message_returns_iff c channel message_ts fuel content t :
  _read_message fuel (mkReader c) channel message_ts = (Ret content, t) <->
  exists pages,
    thread_pages c channel message_ts None pages /\
    length pages <= fuel /\
    content = thread_text pages /\
    t = thread_calls channel message_ts None pages.
Proof.
  split.
  - apply _read_message_returns.
  - intros (pages & Hpages & Hlen & -> & ->).
    apply _read_message_thread; assumption.
Qed.

Lemma _read_message_returns_iff_witness :
  _read_message 2 (mkReader single_page_client) "C1" "1.0"
  = (Ret (join nlnl ["hello"; "hi"; "welcome"]),
     [Call_replies "C1" "1.0" None; Call_replies "C1" "1.0" (Some "t1")]).
Proof.
  apply (proj2 (_read_message_returns_iff single_page_client "C1" "1.0" 2
                  _ _)).
  exists [mkPage [anchor; reply1] true (Some "t1"); mkPage [reply2] false None].
  repeat split; [|simpl; lia].
  eapply thread_more; [reflexivity|reflexivity|reflexivity|].
  constructor; reflexivity.
Defined.

(** X2. When a request for a page of a thread fails, whatever the exception
    (a [SlackApiError] too: the request stands before the [try]),
    [_read_message] raises it and returns none of the texts of the pages it
    had read; the failed request is the last thing it does. *)
Theorem thread_request_failure_is_raised c channel message_ts pages cursor e :
  thread_prefix c channel message_ts None pages cursor ->
  conversations_replies c channel message_ts cursor = Fail e ->
  forall fuel,
    length pages < fuel ->
    _read_message fuel (mkReader c) channel message_ts
    = (Raise e,
       thread_calls channel message_ts None pages
       ++ [Call_replies channel message_ts cursor]).
Proof.
  intros Hprefix Hfail fuel Hfuel. unfold _read_message.
  rewrite (_read_message_loop_request_fails _ _ _ _ _ _ _ Hprefix Hfail)
    by exact Hfuel.
  reflexivity.
Qed.

Lemma thread_request_failure_is_raised_witness :
  _read_message 5 (mkReader odd_threads_client) "C1" "1.0"
  = (Raise (SlackApiError "ratelimited"),
     thread_calls "C1" "1.0" None [mkPage [anchor; reply1] true (Some "t1")]
     ++ [Call_replies "C1" "1.0" (Some "t1")]).
Proof.
  apply (thread_request_failure_is_raised odd_threads_client "C1" "1.0"
           [mkPage [anchor; reply1] true (Some "t1")] (Some "t1")
           (SlackApiError "ratelimited")).
  - eapply prefix_cons; [reflexivity|reflexivity|reflexivity|constructor].
  - reflexivity.
  - simpl. lia.
Defined.

(** X3. When a page of a thread says [has_more] and names no cursor, the
    lookup of the cursor fails with an exception that the handler of
    [_read_message] does not catch: the method raises it, right after the
    request that fetched the page. *)
Theorem thread_page_without_cursor_raises c channel message_ts pages cursor p :
  thread_prefix c channel message_ts None pages cursor ->
  conversations_replies c channel message_ts cursor = Ok p ->
  has_more p = true ->
  next_cursor p = None ->
  forall fuel,
    length pages < fuel ->
    _read_message fuel (mkReader c) channel message_ts
    = (Raise (KeyError "next_cursor"),
       thread_calls channel message_ts None pages
       ++ [Call_replies channel message_ts cursor]).
Proof.
  intros Hprefix Hp Hmore Hnext fuel Hfuel. unfold _read_message.
  rewrite (_read_message_loop_page_without_cursor _ _ _ _ _ _ _
             Hprefix Hp Hmore Hnext) by exact Hfuel.
  reflexivity.
Qed.

Lemma thread_page_without_cursor_raises_witness :
  _read_message 1 (mkReader odd_threads_client) "C1" "2.0"
  = (Raise (KeyError "next_cursor"),
     thread_calls "C1" "2.0" None [] ++ [Call_replies "C1" "2.0" None]).
Proof.
  apply (thread_page_without_cursor_raises odd_threads_client "C1" "2.0"
           [] None (mkPage [second] true None));
    [constructor|reflexivity|reflexivity|reflexivity|simpl; lia].
Defined.

Lemma _read_message_loop_cycle c channel message_ts cursor p pages :
  thread_prefix c channel message_ts cursor (p :: pages) cursor ->
  forall fuel acc,
    fst (_read_message_loop fuel (mkReader c) channel message_ts acc cursor)
    = Timeout.
Proof.
  intros Hcycle fuel.
  induction fuel as [fuel IH] using lt_wf_ind. intros acc.
  destruct (Nat.le_gt_cases fuel (length (p :: pages))) as [Hle|Hgt].
  - apply (_read_message_loop_short _ _ _ _ _ _ Hcycle); exact Hle.
  - replace fuel with (length (p :: pages) + (fuel - length (p :: pages)))
      by lia.
    rewrite (_read_message_loop_prefix _ _ _ _ _ _ Hcycle), fst_after.
    apply IH. simpl in *. lia.
Qed.

(** X4. A thread whose cursors lead back to a page already read (every page
    on the way saying [has_more]) is never read to the end: on no fuel does
    [_read_message] return or raise. *)
Theorem cyclic_thread_never_ends c channel message_ts pages cursor p cycle :
  thread_prefix c channel message_ts None pages cursor ->
  thread_prefix c channel message_ts cursor (p :: cycle) cursor ->
  forall fuel,
    fst (_read_message fuel (mkReader c) channel message_ts) = Timeout.
Proof.
  intros Hprefix Hcycle fuel. unfold _read_message.
  assert (H : fst (_read_message_loop fuel (mkReader c) channel message_ts
                                      [] None) = Timeout).
  { destruct (Nat.le_gt_cases fuel (length pages)) as [Hle|Hgt].
    - apply (_read_message_loop_short _ _ _ _ _ _ Hprefix); exact Hle.
    - replace fuel with (length pages + (fuel - length pages)) by lia.
      rewrite (_read_message_loop_prefix _ _ _ _ _ _ Hprefix), fst_after.
      apply (_read_message_loop_cycle _ _ _ _ _ _ Hcycle). }
  destruct (_read_message_loop fuel (mkReader c) channel message_ts [] None)
    as [o t]. simpl in H. subst o. reflexivity.
Qed.

Lemma cyclic_thread_never_ends_witness :
  fst (_read_message 9 (mkReader odd_threads_client) "C1" "3.0") = Timeout.
Proof.
  apply (cyclic_thread_never_ends odd_threads_client "C1" "3.0"
           [mkPage [third] true (Some "again")] (Some "again")
           (mkPage [third] true (Some "again")) []);
    (eapply prefix_cons; [reflexivity|reflexivity|reflexivity|constructor]).
Defined.

End SlackReaderThreads.

(** * Channels: what [_read_channel] requests, returns and leaves undone *)

Module SlackReaderChannels.
Import SlackReader SlackReaderFacts SlackReaderThreads.

Lemma append_threads_served c channel fuel history threads :
  Forall2 (fun message pages =>
             thread_pages c channel (ts message) None pages) history threads ->
  Forall (fun pages => length pages <= fuel) threads ->
  forall acc,
    append_threads fuel (mkReader c) channel history acc
    = ((Ret tt, channel_thread_calls channel history threads),
       acc ++ map thread_text threads).
Proof.
  induction 1 as [|message pages history threads Hpages _ IH];
    intros Hfuel acc.
  - cbn. rewrite app_nil_r. reflexivity.
  - apply Forall_cons_1 in Hfuel as [Hlen Hfuel].
    cbn [append_threads channel_thread_calls].
    rewrite (_read_message_thread _ _ _ _ _ Hpages Hlen), (IH Hfuel).
    unfold after. cbn [fst snd map]. rewrite <- app_assoc. reflexivity.
Qed.






(** X6. Reading a channel whose history is one page costs two history
    requests, both without a cursor (the second repeats the first), one info
    record with the number of messages, and then one replies request for
    each page of each thread, thread after thread in the order of the
    messages. *)
Theorem _read_channel_single_page_trace c channel p threads fuel :
  conversations_history c channel None = Ok p ->
  has_more p = false ->
  Forall2 (fun message pages =>
             thread_pages c channel (ts message) None pages)
          (messages p) threads ->
  Forall (fun pages => length pages <= fuel) threads ->
  _read_channel (S fuel) (mkReader c) channel
  = (Ret (join nlnl (map thread_text threads)),
     [Call_history channel None; Call_history channel None;
      Log_info_messages_found (length (messages p))]
     ++ channel_thread_calls channel (messages p) threads).
Proof.
  intros Hp Hmore Hthreads Hfuel.
  unfold _read_channel. cbn [_read_channel_loop client].
  rewrite Hp, !call_Ok, bind_Ret.
  rewrite (append_threads_served _ _ _ _ _ Hthreads Hfuel []), Hmore.
  unfold after, ret, bind. cbn [negb fst snd app].
  rewrite !app_nil_r. reflexivity.
Qed.

Lemma _read_channel_single_page_trace_witness :
  _read_channel 3 (mkReader single_page_client) "C1"
  = (Ret (join nlnl (map thread_text
                      [[mkPage [anchor; reply1] true (Some "t1");
                        mkPage [reply2] false None];
                       [mkPage [second] false None];
                       [mkPage [third] false None]])),
     [Call_history "C1" None; Call_history "C1" None;
      Log_info_messages_found 3]
     ++ channel_thread_calls "C1" [anchor; second; third]
          [[mkPage [anchor; reply1] true (Some "t1");
            mkPage [reply2] false None];
           [mkPage [second] false None];
           [mkPage [third] false None]]).
Proof.
  apply (_read_channel_single_page_trace single_page_client "C1"
           (mkPage [anchor; second; third] false None)); try reflexivity.
  - repeat (constructor;
            [first [constructor; reflexivity
                   |eapply thread_more;
                    [reflexivity|reflexivity|reflexivity|
                     constructor; reflexivity]]|]).
    constructor.
  - repeat constructor.
Defined.

(** ** A thread that cannot be read *)

Lemma append_threads_fails c channel fuel before threads message rest e t :
  Forall2 (fun message pages =>
             thread_pages c channel (ts message) None pages) before threads ->
  Forall (fun pages => length pages <= fuel) threads ->
  _read_message fuel (mkReader c) channel (ts message) = (Raise e, t) ->
  forall acc,
    append_threads fuel (mkReader c) channel (before ++ message :: rest) acc
    = ((Raise e, channel_thread_calls channel before threads ++ t),
       acc ++ map thread_text threads).
Proof.
  intros Hthreads Hfuel Hfail.
  induction Hthreads as [|m pages before threads Hpages _ IH]; intros acc.
  - cbn [app append_threads channel_thread_calls map]. rewrite Hfail.
    rewrite app_nil_r. reflexivity.
  - apply Forall_cons_1 in Hfuel as [Hlen Hfuel].
    cbn [app append_threads channel_thread_calls map].
    rewrite (_read_message_thread _ _ _ _ _ Hpages Hlen), (IH Hfuel).
    unfold after. cbn [fst snd]. rewrite <- !app_assoc. reflexivity.
Qed.

(** X7. When the thread of a message of the first page cannot be read because
    a request for one of its pages fails with a [SlackApiError] (the threads
    of the messages before it being served), [_read_channel] neither returns
    nor raises, on any fuel: the handler logs the error and the loop starts
    the same round again, for ever. *)
Theorem unreadable_thread_never_ends
    c channel p before threads message rest pages cursor msg :
  conversations_history c channel None = Ok p ->
  messages p = before ++ message :: rest ->
  Forall2 (fun message pages =>
             thread_pages c channel (ts message) None pages) before threads ->
  thread_prefix c channel (ts message) None pages cursor ->
  conversations_replies c channel (ts message) cursor
  = Fail (SlackApiError msg) ->
  forall fuel,
    fst (_read_channel fuel (mkReader c) channel) = Timeout.
Proof.
  intros Hp Hmessages Hthreads Hprefix Hfail.
  assert (Happend : forall fuel acc,
             fst (fst (append_threads fuel (mkReader c) channel
                                      (messages p) acc)) = Timeout \/
             fst (fst (append_threads fuel (mkReader c) channel
                                      (messages p) acc))
             = Raise (SlackApiError msg)).
  { intros fuel acc.
    set (N := Nat.max fuel (Nat.max (list_max (map length threads))
                                    (S (length pages)))).
    assert (HN : Forall (fun pages => length pages <= N) threads).
    { eapply Forall_impl; [apply lengths_bounded|]. cbn beta. intros; lia. }
    assert (Hraise : _read_message N (mkReader c) channel (ts message)
                     = (Raise (SlackApiError msg),
                        thread_calls channel (ts message) None pages
                        ++ [Call_replies channel (ts message) cursor])).
    { unfold _read_message.
      rewrite (_read_message_loop_request_fails _ _ _ _ _ _ _ Hprefix Hfail)
        by lia.
      reflexivity. }
    pose proof (append_threads_fails _ _ _ _ _ _ rest _ _ Hthreads HN Hraise
                  acc) as Hbig.
    rewrite <- Hmessages in Hbig.
    destruct (fst (fst (append_threads fuel (mkReader c) channel
                                       (messages p) acc))) eqn:E;
      [right|right|left; reflexivity].
    - rewrite (append_threads_mono c c (same_responses_refl c) fuel N)
        in Hbig by (try lia; rewrite E; discriminate).
      rewrite Hbig in E. cbn [fst] in E. discriminate E.
    - rewrite (append_threads_mono c c (same_responses_refl c) fuel N)
        in Hbig by (try lia; rewrite E; discriminate).
      rewrite Hbig in E. cbn [fst] in E. symmetry. exact E. }
  assert (Hloop : forall fuel acc,
             fst (_read_channel_loop fuel (mkReader c) channel acc None)
             = Timeout).
  { induction fuel as [|fuel IH]; intros acc; [reflexivity|].
    cbn [_read_channel_loop client].
    rewrite Hp, !call_Ok, bind_Ret, fst_after.
    destruct (Happend fuel acc) as [H|H];
      destruct (append_threads fuel (mkReader c) channel (messages p) acc)
        as [[o t3] acc']; cbn [fst] in H; subst o; [reflexivity|].
    cbn [is_SlackApiError]. rewrite fst_after. apply IH. }
  intros fuel. unfold _read_channel.
  specialize (Hloop fuel []).
  destruct (_read_channel_loop fuel (mkReader c) channel [] None) as [o t].
  simpl in Hloop. subst o. reflexivity.
Qed.

Lemma unreadable_thread_never_ends_witness :
  fst (_read_channel 7 (mkReader broken_thread_client) "C1") = Timeout.
Proof.
  apply (unreadable_thread_never_ends broken_thread_client "C1"
           (mkPage [anchor; orphan; third] false None)
           [anchor]
           [[mkPage [anchor; reply1] true (Some "t1");
             mkPage [reply2] false None]]
           orphan [third] [] None "thread_not_found");
    try reflexivity.
  - constructor; [|constructor].
    eapply thread_more; [reflexivity|reflexivity|reflexivity|].
    constructor; reflexivity.
  - constructor.
Defined.

(** X20. An exception that is no [SlackApiError], raised while the thread
    of a message of the first page is read (the threads of the messages
    before it being served), is not caught by the handler: it leaves
    [_read_channel], which returns no body. *)
Theorem thread_exception_leaves_read_channel
    c channel p before threads message rest e fuel :
  conversations_history c channel None = Ok p ->
  messages p = before ++ message :: rest ->
  Forall2 (fun message pages =>
             thread_pages c channel (ts message) None pages) before threads ->
  Forall (fun pages => length pages <= fuel) threads ->
  fst (_read_message fuel (mkReader c) channel (ts message)) = Raise e ->
  is_SlackApiError e = false ->
  fst (_read_channel (S fuel) (mkReader c) channel) = Raise e.
Proof.
  intros Hp Hmessages Hthreads Hfuel Hraise He.
  destruct (_read_message fuel (mkReader c) channel (ts message))
    as [o t] eqn:E.
  cbn [fst] in Hraise. subst o.
  unfold _read_channel. apply fst_bind_Raise.
  cbn [_read_channel_loop client].
  rewrite Hp, !call_Ok, bind_Ret, fst_after, Hmessages.
  rewrite (append_threads_fails _ _ _ _ _ _ rest _ _ Hthreads Hfuel E []).
  rewrite He. reflexivity.
Qed.

Lemma thread_exception_leaves_read_channel_witness :
  fst (_read_channel 2 (mkReader keyless_thread_client) "C1")
  = Raise (KeyError "next_cursor").
Proof.
  apply (thread_exception_leaves_read_channel keyless_thread_client "C1"
           (mkPage [second; third] false None) [] [] second [third]);
    try reflexivity; constructor.
Defined.

(** X21. A failure of the very first history request, a [SlackApiError]
    too, leaves [_read_channel] and [load_data] at once: nothing is logged,
    nothing is retried, and that request is the only one sent. *)
Theorem first_history_request_failure c channel e fuel :
  conversations_history c channel None = Fail e ->
  _read_channel (S fuel) (mkReader c) channel
  = (Raise e, [Call_history channel None]) /\
  load_data (S fuel) (mkReader c) (kwargs_channel_ids [channel])
  = (Raise e, [Call_history channel None]).
Proof.
  intros Hfail.
  assert (H : _read_channel (S fuel) (mkReader c) channel
              = (Raise e, [Call_history channel None])).
  { unfold _read_channel. cbn [_read_channel_loop client].
    rewrite Hfail, call_Fail. reflexivity. }
  split; [exact H|].
  assert (Hld : load_data (S fuel) (mkReader c) (kwargs_channel_ids [channel])
                = load_channels (S fuel) (mkReader c) [channel] []).
  { unfold load_data, kwargs_channel_ids. rewrite lookup_singleton_eq.
    reflexivity. }
  rewrite Hld. cbn [load_channels]. rewrite H. reflexivity.
Qed.

Lemma first_history_request_failure_witness :
  _read_channel 1 (mkReader single_page_client) "C9"
  = (Raise (SlackApiError "channel_not_found"), [Call_history "C9" None]) /\
  load_data 1 (mkReader single_page_client) (kwargs_channel_ids ["C9"])
  = (Raise (SlackApiError "channel_not_found"), [Call_history "C9" None]).
Proof.
  apply (first_history_request_failure single_page_client "C9"
           (SlackApiError "channel_not_found") 0).
  reflexivity.
Defined.

(** ** What is requested *)

Lemma snd_bind_ret {A B} (m : M A) (f : A -> B) :
  snd (bind m (fun a => ret (f a))) = snd m.
Proof.
  destruct m as [[a|e|] t]; try reflexivity.
  rewrite bind_Ret. unfold after, ret. cbn [snd]. apply app_nil_r.
Qed.

Lemma _read_message_loop_events c channel message_ts :
  forall fuel acc cursor,
    Forall (fun ev => exists cursor',
                ev = Call_replies channel message_ts cursor')
           (snd (_read_message_loop fuel (mkReader c) channel message_ts
                                    acc cursor)).
Proof.
  induction fuel as [|fuel IH]; intros acc cursor; [constructor|].
  cbn [_read_message_loop client].
  destruct (conversations_replies c channel message_ts cursor) as [p|e].
  - rewrite call_Ok, bind_Ret, snd_after.
    apply Forall_app. split; [repeat constructor; eexists; reflexivity|].
    destruct (negb (has_more p)); [constructor|].
    destruct (next_cursor p); [apply IH|constructor].
  - rewrite call_Fail, bind_Raise.
    repeat constructor. eexists; reflexivity.
Qed.

Lemma append_threads_events c channel (P : Event -> Prop) fuel :
  forall history acc,
    (forall message cursor,
        In message history -> P (Call_replies channel (ts message) cursor)) ->
    Forall P (snd (fst (append_threads fuel (mkReader c) channel history acc))).
Proof.
  induction history as [|message rest IH]; intros acc HP; [constructor|].
  cbn [append_threads].
  assert (Ht : Forall P (snd (_read_message fuel (mkReader c) channel
                                            (ts message)))).
  { unfold _read_message. rewrite snd_bind_ret.
    eapply Forall_impl; [apply _read_message_loop_events|].
    cbn beta. intros ev [cursor ->]. apply HP. left. reflexivity. }
  destruct (_read_message fuel (mkReader c) channel (ts message))
    as [[s|e|] t]; cbn [snd] in Ht; try exact Ht.
  specialize (IH (acc ++ [s])
                 (fun m cur Hin => HP m cur (or_intror Hin))).
  destruct (append_threads fuel (mkReader c) channel rest (acc ++ [s]))
    as [m acc'].
  cbn [fst] in *. rewrite snd_after. apply Forall_app. split; assumption.
Qed.

Lemma _read_channel_loop_events c channel :
  forall fuel acc cursor,
    first_page_cursor c channel cursor ->
    Forall (channel_event c channel)
           (snd (_read_channel_loop fuel (mkReader c) channel acc cursor)).
Proof.
  induction fuel as [|fuel IH]; intros acc cursor Hcursor; [constructor|].
  cbn [_read_channel_loop client].
  assert (Hfirst : channel_event c channel (Call_history channel cursor))
    by (split; [reflexivity|exact Hcursor]).
  assert (Hnone : channel_event c channel (Call_history channel None))
    by (split; [reflexivity|left; reflexivity]).
  destruct (conversations_history c channel cursor) as [p0|e0].
  2:{ rewrite call_Fail, bind_Raise. cbn [snd].
      constructor; [assumption|constructor]. }
  rewrite call_Ok, bind_Ret, snd_after.
  apply Forall_app. split; [constructor; [assumption|constructor]|].
  destruct (conversations_history c channel None) as [p|e] eqn:Hp.
  - rewrite call_Ok.
    pose proof (append_threads_events c channel (channel_event c channel)
                  fuel (messages p) acc) as Happend.
    destruct (append_threads fuel (mkReader c) channel (messages p) acc)
      as [[o t3] acc'].
    cbn [fst snd] in Happend.
    assert (Ht3 : Forall (channel_event c channel) t3).
    { apply Happend. intros message cur Hin. split; [reflexivity|].
      exists p, message. repeat split; assumption. }
    assert (Ht2 : Forall (channel_event c channel)
                    ([Call_history channel None]
                     ++ [Log_info_messages_found (length (messages p))])).
    { constructor; [assumption|]. constructor; [exact I|constructor]. }
    destruct o as [u|e|].
    + rewrite snd_after.
      apply Forall_app; split; [apply Forall_app; split; assumption|].
      destruct (has_more p) eqn:Hmore; cbn [negb]; [|constructor].
      destruct (next_cursor p) as [next|] eqn:Hnext; [|constructor].
      apply IH. right. exists p. repeat split; assumption.
    + destruct (is_SlackApiError e) eqn:He.
      * rewrite snd_after.
        apply Forall_app; split; [|apply IH; exact Hcursor].
        apply Forall_app; split; [assumption|].
        apply Forall_app; split; [assumption|].
        constructor; [exact He|constructor].
      * cbn [snd]. rewrite Forall_app. split; assumption.
    + cbn [snd]. rewrite Forall_app. split; assumption.
  - rewrite call_Fail.
    destruct (is_SlackApiError e) eqn:He.
    + rewrite snd_after.
      apply Forall_app; split; [|apply IH; exact Hcursor].
      apply Forall_app; split; constructor;
        first [assumption|exact He|constructor].
    + cbn [snd]. constructor; [assumption|constructor].
Qed.

(** X8. Whatever happens during a read of a channel, on any fuel, every
    history request is about that channel and carries no cursor or the
    cursor named by the page served without a cursor (no page beyond the
    second is ever asked for); every replies request is about that channel
    and anchored at a message of that same first page; every error record is
    about a [SlackApiError]; and [api_test] is never called. *)
Theorem _read_channel_events c channel fuel :
  Forall (channel_event c channel)
         (snd (_read_channel fuel (mkReader c) channel)).
Proof.
  unfold _read_channel. rewrite snd_bind_ret.
  apply _read_channel_loop_events. left. reflexivity.
Qed.

Lemma load_channels_events c fuel channel_ids :
  forall todo results,
    (forall channel, In channel todo -> In channel channel_ids) ->
    Forall (fun ev => exists channel,
                In channel channel_ids /\ channel_event c channel ev)
           (snd (load_channels fuel (mkReader c) todo results)).
Proof.
  induction todo as [|channel_id rest IH]; intros results Hin; [constructor|].
  cbn [load_channels].
  assert (Hev : Forall (channel_event c channel_id)
                  (snd (_read_channel fuel (mkReader c) channel_id))).
  { unfold _read_channel. rewrite snd_bind_ret.
    apply _read_channel_loop_events. left. reflexivity. }
  destruct (_read_channel fuel (mkReader c) channel_id) as [[content|e|] t];
    cbn [snd] in Hev.
  - rewrite bind_Ret, snd_after. apply Forall_app. split.
    + eapply Forall_impl; [exact Hev|]. cbn beta. intros ev H.
      exists channel_id. split; [apply Hin; left; reflexivity|exact H].
    + apply IH. intros; apply Hin; right; assumption.
  - rewrite bind_Raise. cbn [snd].
    eapply Forall_impl; [exact Hev|]. cbn beta. intros ev H.
    exists channel_id. split; [apply Hin; left; reflexivity|exact H].
  - rewrite bind_Timeout. cbn [snd].
    eapply Forall_impl; [exact Hev|]. cbn beta. intros ev H.
    exists channel_id. split; [apply Hin; left; reflexivity|exact H].
Qed.

(** X9. Every request [load_data] sends, whether it ends well or not, is a
    request that the read of one of the given channel ids may send: no
    channel outside the collection is ever asked about. *)
Theorem load_data_events c fuel load_kwargs channel_ids :
  default None (load_kwargs !! "channel_ids") = Some channel_ids ->
  Forall (fun ev => exists channel,
              In channel channel_ids /\ channel_event c channel ev)
         (snd (load_data fuel (mkReader c) load_kwargs)).
Proof.
  intros H. unfold load_data. rewrite H.
  apply load_channels_events. auto.
Qed.

Lemma load_data_events_witness :
  Forall (fun ev => exists channel,
              In channel ["C1"; "C2"] /\
              channel_event two_page_client channel ev)
         (snd (load_data 4 (mkReader two_page_client)
                         (kwargs_channel_ids ["C1"; "C2"]))).
Proof.
  apply (load_data_events two_page_client 4 (kwargs_channel_ids ["C1"; "C2"])
           ["C1"; "C2"]).
  vm_compute. reflexivity.
Defined.

End SlackReaderChannels.

(** * The ingestion operation and the constructor, beyond the claims *)

Module SlackReaderIngestion.
Import SlackReader SlackReaderFacts SlackReaderThreads SlackReaderChannels.

(** ** Channels are read one after the other *)

Lemma load_channels_app c fuel before :
  Forall (fun channel =>
            returned (fst (_read_channel fuel (mkReader c) channel)) = true)
         before ->
  forall rest results,
    exists docs,
      length docs = length before /\
      load_channels fuel (mkReader c) (before ++ rest) results
      = after (flat_map (fun channel =>
                           snd (_read_channel fuel (mkReader c) channel))
                        before)
          (load_channels fuel (mkReader c) rest (results ++ docs)).
Proof.
  induction 1 as [|channel before Hret _ IH]; intros rest results.
  - exists []. split; [reflexivity|]. rewrite app_nil_r. cbn [app flat_map].
    unfold after. cbn [app]. destruct (load_channels _ _ _ _). reflexivity.
  - cbn [app load_channels flat_map].
    destruct (_read_channel fuel (mkReader c) channel) as [[content|e|] t];
      try discriminate Hret.
    rewrite bind_Ret.
    destruct (IH rest (results ++
                [mkDocument content (Some {[ "channel" := channel ]})]))
      as (docs & Hlen & ->).
    exists (mkDocument content (Some {[ "channel" := channel ]}) :: docs).
    split; [simpl; congruence|].
    unfold after. cbn [fst snd]. rewrite <- !app_assoc. reflexivity.
Qed.

(** X10. [load_data] reads the channels strictly in the order of the ids and
    gives up at the first one whose read raises: it raises the same
    exception, returns no document (those of the channels read before are
    lost), and has sent exactly the requests of the channels up to and with
    the failing one: the channels after it are never asked about. *)
Theorem load_data_stops_at_first_failure
    c fuel load_kwargs before channel rest e :
  default None (load_kwargs !! "channel_ids")
  = Some (before ++ channel :: rest) ->
  Forall (fun channel =>
            returned (fst (_read_channel fuel (mkReader c) channel)) = true)
         before ->
  fst (_read_channel fuel (mkReader c) channel) = Raise e ->
  load_data fuel (mkReader c) load_kwargs
  = (Raise e,
     flat_map (fun channel => snd (_read_channel fuel (mkReader c) channel))
              (before ++ [channel])).
Proof.
  intros Hkw Hbefore Hfail. unfold load_data. rewrite Hkw.
  destruct (load_channels_app c fuel before Hbefore (channel :: rest) [])
    as (docs & _ & ->).
  cbn [load_channels]. rewrite flat_map_app. cbn [flat_map].
  destruct (_read_channel fuel (mkReader c) channel) as [o t].
  cbn [fst] in Hfail. subst o. rewrite bind_Raise.
  unfold after. cbn [fst snd]. rewrite app_nil_r. reflexivity.
Qed.

Lemma load_data_stops_at_first_failure_witness :
  load_data 3 (mkReader single_page_client)
            (kwargs_channel_ids ["C1"; "C9"; "C1"])
  = (Raise (SlackApiError "channel_not_found"),
     flat_map (fun channel =>
                 snd (_read_channel 3 (mkReader single_page_client) channel))
              (["C1"] ++ ["C9"])).
Proof.
  apply (load_data_stops_at_first_failure single_page_client 3
           (kwargs_channel_ids ["C1"; "C9"; "C1"]) ["C1"] "C9" ["C1"]
           (SlackApiError "channel_not_found")).
  - vm_compute. reflexivity.
  - constructor; [vm_compute; reflexivity|constructor].
  - vm_compute. reflexivity.
Defined.

(** X11. When [load_data] returns, what it did is what the reads of the
    channels do, one channel after the other in the order of the ids, and
    nothing else. *)
Theorem load_data_trace_is_sequential c fuel load_kwargs channel_ids docs :
  default None (load_kwargs !! "channel_ids") = Some channel_ids ->
  fst (load_data fuel (mkReader c) load_kwargs) = Ret docs ->
  snd (load_data fuel (mkReader c) load_kwargs)
  = flat_map (fun channel => snd (_read_channel fuel (mkReader c) channel))
             channel_ids.
Proof.
  intros Hkw Hret. unfold load_data in *. rewrite Hkw in *.
  destruct (load_channels_documents _ _ _ _ _ Hret) as (new & _ & Hnew).
  assert (Hall : Forall (fun channel =>
                           returned (fst (_read_channel fuel (mkReader c)
                                                        channel)) = true)
                        channel_ids).
  { clear Hret Hkw. induction Hnew as [|channel d ids ds [Hd _] _ IH];
      [constructor|].
    constructor; [rewrite Hd; reflexivity|exact IH]. }
  destruct (load_channels_app c fuel channel_ids Hall [] [])
    as (ds & _ & Heq).
  rewrite app_nil_r in Heq. rewrite Heq, snd_after. cbn [load_channels].
  apply app_nil_r.
Qed.

Lemma load_data_trace_is_sequential_witness :
  snd (load_data 3 (mkReader single_page_client)
                 (kwargs_channel_ids ["C1"; "C1"]))
  = flat_map (fun channel =>
                snd (_read_channel 3 (mkReader single_page_client) channel))
             ["C1"; "C1"].
Proof.
  eapply (load_data_trace_is_sequential single_page_client 3
            (kwargs_channel_ids ["C1"; "C1"]) ["C1"; "C1"]).
  - vm_compute. reflexivity.
  - vm_compute. reflexivity.
Defined.

(** ** The body is flat *)

Lemma append_assoc (a b c : string) :
  String.append (String.append a b) c = String.append a (String.append b c).
Proof.
  induction a as [|x a IH]; [reflexivity|].
  change (String x (String.append (String.append a b) c)
          = String x (String.append a (String.append b c))).
  f_equal. exact IH.
Qed.

Lemma join_cons sep x l :
  l <> [] ->
  join sep (x :: l) = String.append x (String.append sep (join sep l)).
Proof. destruct l; [congruence|reflexivity]. Qed.

Lemma join_app sep l1 l2 :
  l1 <> [] -> l2 <> [] ->
  join sep (l1 ++ l2)
  = String.append (join sep l1) (String.append sep (join sep l2)).
Proof.
  intros H1 H2. induction l1 as [|x l1 IH]; [congruence|].
  destruct l1 as [|y l1].
  - cbn [app]. apply join_cons. exact H2.
  - change ((x :: y :: l1) ++ l2) with (x :: ((y :: l1) ++ l2)).
    rewrite join_cons by discriminate.
    rewrite IH by discriminate.
    rewrite (join_cons sep x (y :: l1)) by discriminate.
    rewrite !append_assoc. reflexivity.
Qed.

Lemma join_concat sep (ls : list (list string)) :
  Forall (fun l => l <> []) ls ->
  join sep (map (join sep) ls) = join sep (concat ls).
Proof.
  induction 1 as [|l ls Hl Hls IH]; [reflexivity|].
  destruct ls as [|l' ls].
  - cbn. rewrite app_nil_r. reflexivity.
  - cbn [map concat].
    rewrite join_cons by discriminate.
    cbn [map concat] in IH. rewrite IH.
    rewrite (join_app sep l (l' ++ concat ls)); [reflexivity|exact Hl|].
    apply Forall_cons_1 in Hls as [Hl' _].
    destruct l'; [congruence|discriminate].
Qed.

Lemma concat_texts (threads : list (list Page)) :
  concat (map (fun pages => map text (records pages)) threads)
  = map text (flat_map records threads).
Proof.
  induction threads as [|pages threads IH]; [reflexivity|].
  cbn [map concat flat_map]. rewrite map_app, IH. reflexivity.
Qed.

(** X12. The body of a channel keeps no trace of where a thread ends: when
    every thread has at least one record (the anchor), the body that
    [_read_channel] returns for a history of one page is the texts of all the
    records of all the threads, in order, with the same blank line between
    two replies of a thread as between two threads. *)
Theorem channel_body_is_flat c channel p threads fuel :
  conversations_history c channel None = Ok p ->
  has_more p = false ->
  Forall2 (fun message pages =>
             thread_pages c channel (ts message) None pages)
          (messages p) threads ->
  Forall (fun pages => length pages <= fuel) threads ->
  Forall (fun pages => records pages <> []) threads ->
  fst (_read_channel (S fuel) (mkReader c) channel)
  = Ret (join nlnl (map text (flat_map records threads))).
Proof.
  intros Hp Hmore Hthreads Hfuel Hrecords.
  rewrite (_read_channel_single_page _ _ _ _ _ Hp Hmore Hthreads Hfuel).
  f_equal. rewrite <- concat_texts, <- join_concat.
  - rewrite map_map. reflexivity.
  - apply Forall_map. eapply Forall_impl; [exact Hrecords|].
    cbn beta. intros pages H. destruct (records pages); [congruence|].
    discriminate.
Qed.

Lemma channel_body_is_flat_witness :
  fst (_read_channel 3 (mkReader single_page_client) "C1")
  = Ret (join nlnl ["hello"; "hi"; "welcome"; "standup at ten"; "lunch"]).
Proof.
  apply (channel_body_is_flat single_page_client "C1"
           (mkPage [anchor; second; third] false None)
           [[mkPage [anchor; reply1] true (Some "t1");
             mkPage [reply2] false None];
            [mkPage [second] false None];
            [mkPage [third] false None]] 2); try reflexivity.
  - repeat (constructor;
            [first [constructor; reflexivity
                   |eapply thread_more;
                    [reflexivity|reflexivity|reflexivity|
                     constructor; reflexivity]]|]).
    constructor.
  - repeat constructor.
  - repeat (constructor; [discriminate|]). constructor.
Defined.

(** ** The constructor *)

Lemma bind_ret_l {A B} (a : A) (k : A -> M B) : bind (ret a) k = k a.
Proof.
  unfold ret. rewrite bind_Ret. unfold after. destruct (k a). reflexivity.
Qed.

(** X13. [__init__] hands back a reader exactly when [slack_sdk] is there, a
    token is found (the argument, or else the variable [SLACK_BOT_TOKEN] of
    the environment: the environment is looked at only when no argument is
    given) and [api_test], called once on the client built from that token,
    answers [ok]; the reader then holds that client, and [api_test] is the
    only remote call made. *)
Theorem init_returns_iff slack_sdk environ slack_token self t :
  __init__ slack_sdk environ slack_token = (Ret self, t) <->
  exists WebClient_ token res,
    slack_sdk = Some WebClient_ /\
    (slack_token = Some token \/
     slack_token = None /\ environ !! "SLACK_BOT_TOKEN" = Some token) /\
    api_test (WebClient_ token) = Ok res /\
    ok res = true /\
    self = mkReader (WebClient_ token) /\
    t = [Call_api_test].
Proof.
  unfold __init__. split.
  - destruct slack_sdk as [WebClient_|]; [|discriminate].
    assert (Hcheck : forall token,
               bind (call Call_api_test (api_test (WebClient_ token)))
                    (fun res =>
                       if negb (ok res)
                       then raise (ValueError
                              (String.append "Error initializing Slack API: "
                                             (error res)))
                       else ret (mkReader (WebClient_ token)))
               = (Ret self, t) ->
               exists res,
                 api_test (WebClient_ token) = Ok res /\ ok res = true /\
                 self = mkReader (WebClient_ token) /\ t = [Call_api_test]).
    { intros token H.
      destruct (api_test (WebClient_ token)) as [res|e]; [|discriminate H].
      rewrite call_Ok, bind_Ret in H.
      destruct (ok res) eqn:Hok; [|discriminate H].
      injection H as <- <-. exists res. repeat split. exact Hok. }
    destruct slack_token as [token|].
    + rewrite bind_ret_l.
      intros H. destruct (Hcheck token H) as (res & H1 & H2 & H3 & H4).
      exists WebClient_, token, res. repeat split; auto.
    + destruct (environ !! "SLACK_BOT_TOKEN") as [token|] eqn:Henv;
        [|discriminate].
      rewrite bind_ret_l.
      intros H. destruct (Hcheck token H) as (res & H1 & H2 & H3 & H4).
      exists WebClient_, token, res. repeat split; auto.
  - intros (WebClient_ & token & res & -> & Htoken & Hres & Hok & -> & ->).
    destruct Htoken as [->|[-> ->]];
      rewrite bind_ret_l, Hres, call_Ok, bind_Ret, Hok; reflexivity.
Qed.

Lemma init_returns_iff_witness :
  __init__ (Some (fun _ => single_page_client))
           {[ "SLACK_BOT_TOKEN" := "xoxb-1" ]} None
  = (Ret (mkReader single_page_client), [Call_api_test]).
Proof.
  apply (proj2 (init_returns_iff (Some (fun _ => single_page_client))
                  {[ "SLACK_BOT_TOKEN" := "xoxb-1" ]} None _ _)).
  exists (fun _ => single_page_client), "xoxb-1", (mkApiTest true "").
  repeat split. right. split; [reflexivity|vm_compute; reflexivity].
Defined.

(** X14. When the start-up check is refused ([api_test] answers without
    [ok]), [__init__] raises a [ValueError] whose message ends with the error
    text of the answer, after that one remote call, whichever way the token
    was found; when [api_test] itself raises, that exception leaves the
    constructor. *)
Theorem init_refused WebClient_ environ slack_token token :
  slack_token = Some token \/
  slack_token = None /\ environ !! "SLACK_BOT_TOKEN" = Some token ->
  (forall res,
      api_test (WebClient_ token) = Ok res -> ok res = false ->
      __init__ (Some WebClient_) environ slack_token
      = (Raise (ValueError (String.append "Error initializing Slack API: "
                                          (error res))),
         [Call_api_test])) /\
  (forall e,
      api_test (WebClient_ token) = Fail e ->
      __init__ (Some WebClient_) environ slack_token
      = (Raise e, [Call_api_test])).
Proof.
  intros Htoken. unfold __init__. split.
  - intros res Hres Hok.
    destruct Htoken as [->|[-> ->]];
      rewrite bind_ret_l, Hres, call_Ok, bind_Ret, Hok; reflexivity.
  - intros e He.
    destruct Htoken as [->|[-> ->]];
      rewrite bind_ret_l, He, call_Fail; reflexivity.
Qed.

Lemma init_refused_witness :
  __init__ (Some (fun _ => refused_client)) ∅ (Some "xoxb-0")
  = (Raise (ValueError (String.append "Error initializing Slack API: "
                                      "invalid_auth")),
     [Call_api_test]).
Proof.
  destruct (init_refused (fun _ => refused_client) ∅ (Some "xoxb-0") "xoxb-0")
    as [Hrefused _]; [left; reflexivity|].
  apply (Hrefused (mkApiTest false "invalid_auth")); reflexivity.
Defined.

End SlackReaderIngestion.

(** * The directory reader, beyond the claims *)

Module SimpleDirectoryReaderLoading.
Import SimpleDirectoryReader SimpleDirectoryReaderFacts.

Lemma read_files_returns fs :
  forall files data_list l,
    read_files fs files data_list = Ret l ->
    exists contents,
      Forall2 (fun f data => read fs f = inr data) files contents /\
      l = data_list ++ contents.
Proof.
  induction files as [|f rest IH]; intros data_list l H.
  - injection H as <-. exists []. split; [constructor|].
    symmetry. apply app_nil_r.
  - cbn [read_files] in H. destruct (read fs f) as [e|data] eqn:Hf;
      [discriminate H|].
    destruct (IH _ _ H) as (contents & Hc & ->).
    exists (data :: contents). split; [constructor; assumption|].
    rewrite <- app_assoc. reflexivity.
Qed.

Lemma read_files_first_unreadable fs before contents f rest e :
  Forall2 (fun f data => read fs f = inr data) before contents ->
  read fs f = inl e ->
  forall data_list,
    read_files fs (before ++ f :: rest) data_list = Raise e.
Proof.
  intros Hbefore Hf.
  induction Hbefore as [|g data before contents Hg _ IH]; intros data_list.
  - cbn [app read_files]. rewrite Hf. reflexivity.
  - cbn [app read_files]. rewrite Hg. apply IH.
Qed.

Lemma read_files_not_Timeout fs :
  forall files data_list,
    read_files fs files data_list <> Timeout.
Proof.
  induction files as [|f rest IH]; intros data_list; [discriminate|].
  cbn [read_files]. destruct (read fs f); [discriminate|apply IH].
Qed.

(** X15. [load_data] returns exactly when every file the reader holds can be
    read; it then returns, with [concatenate] true or missing, one document
    whose body is the contents of the files in the order the reader holds
    them, a line break between, and otherwise one document a file, in that
    order. *)
Theorem load_data_returns_iff fs self load_kwargs docs :
  load_data fs self load_kwargs = Ret docs <->
  exists contents,
    Forall2 (fun f data => read fs f = inr data) (input_files self) contents /\
    docs = if default true (load_kwargs !! "concatenate")
           then [Document_of_text (join nl contents)]
           else map Document_of_text contents.
Proof.
  split.
  - unfold load_data. intros H.
    destruct (read_files fs (input_files self) []) as [data_list|e|] eqn:E;
      try discriminate H.
    destruct (read_files_returns _ _ _ _ E) as (contents & Hc & ->).
    exists contents. split; [exact Hc|].
    cbn [app] in H.
    destruct (default true (load_kwargs !! "concatenate"));
      injection H as <-; reflexivity.
  - intros (contents & Hc & ->). apply load_data_contents. exact Hc.
Qed.

Lemma load_data_returns_iff_witness :
  load_data foo_bar_fs (mkReader "data" [a_txt; b_txt]) ∅
  = Ret [Document_of_text (join nl ["foo"; "bar"])].
Proof.
  apply (proj2 (load_data_returns_iff foo_bar_fs
                  (mkReader "data" [a_txt; b_txt]) ∅ _)).
  exists ["foo"; "bar"]. split; [|reflexivity].
  repeat constructor.
Defined.

(** X16. The one document of [concatenate=True] is the join of the
    documents of [concatenate=False]: whenever the latter call returns
    [docs], the former (and the call without the keyword) returns the single
    document whose body is the bodies of [docs] with a line break between;
    and when one of them raises, the other raises the same exception. *)
Theorem load_data_concatenate_joins fs self :
  match load_data fs self {[ "concatenate" := false ]} with
  | Ret docs =>
      load_data fs self {[ "concatenate" := true ]}
      = Ret [Document_of_text (join nl (map body docs))] /\
      load_data fs self ∅
      = Ret [Document_of_text (join nl (map body docs))]
  | Raise e =>
      load_data fs self {[ "concatenate" := true ]} = Raise e /\
      load_data fs self ∅ = Raise e
  | Timeout => False
  end.
Proof.
  unfold load_data. rewrite !lookup_singleton_eq, lookup_empty.
  cbn [default from_option].
  destruct (read_files fs (input_files self) []) as [data_list|e|] eqn:E;
    cbv beta iota delta [id].
  - rewrite map_map. cbn [Document_of_text body].
    rewrite map_id. split; reflexivity.
  - split; reflexivity.
  - exact (read_files_not_Timeout _ _ _ E).
Qed.

(** X17. When a file the reader holds cannot be read (the files before it
    can), [load_data] raises the exception of that read and returns no
    document, with [concatenate] or without. *)
Theorem load_data_first_unreadable
    fs self load_kwargs before contents f rest e :
  input_files self = before ++ f :: rest ->
  Forall2 (fun f data => read fs f = inr data) before contents ->
  read fs f = inl e ->
  load_data fs self load_kwargs = Raise e.
Proof.
  intros Hfiles Hbefore Hf. unfold load_data.
  rewrite Hfiles, (read_files_first_unreadable _ _ _ _ _ _ Hbefore Hf).
  reflexivity.
Qed.

Lemma load_data_first_unreadable_witness :
  load_data locked_fs (mkReader "data" [a_txt; secret_txt; b_txt])
            {[ "concatenate" := false ]}
  = Raise (OSError "Permission denied").
Proof.
  apply (load_data_first_unreadable locked_fs
           (mkReader "data" [a_txt; secret_txt; b_txt])
           {[ "concatenate" := false ]} [a_txt] ["foo"] secret_txt [b_txt]);
    [reflexivity|repeat constructor|reflexivity].
Defined.

Lemma check_files_first_non_file fs before f rest :
  Forall (fun g => is_file fs g = true) before ->
  is_file fs f = false ->
  check_files fs (before ++ f :: rest)
  = Raise (ValueError (expected_file f)).
Proof.
  intros Hbefore Hf. induction Hbefore as [|g before Hg _ IH].
  - cbn [app check_files]. rewrite Hf. reflexivity.
  - cbn [app check_files]. rewrite Hg. exact IH.
Qed.

(** X18. The [ValueError] of the constructor names the first entry, in the
    order of the enumeration and after the exclusion of hidden files, that is
    no regular file; what comes after it is not looked at. *)
Theorem init_names_first_non_file
    fs input_dir (exclude_hidden : bool) entries before f rest :
  iterdir fs input_dir = inr entries ->
  (if exclude_hidden then exclude_hidden_files entries else entries)
  = before ++ f :: rest ->
  Forall (fun g => is_file fs g = true) before ->
  is_file fs f = false ->
  __init__ fs input_dir exclude_hidden
  = Raise (ValueError (expected_file f)).
Proof.
  intros Hdir Hkept Hbefore Hf. unfold __init__.
  rewrite Hdir, Hkept, (check_files_first_non_file _ _ _ _ Hbefore Hf).
  reflexivity.
Qed.

Lemma init_names_first_non_file_witness :
  __init__ nested_fs "data" true
  = Raise (ValueError (expected_file (mkPath "sub" "data/sub"))).
Proof.
  apply (init_names_first_non_file nested_fs "data" true
           [a_txt; mkPath "sub" "data/sub"; mkPath "tmp" "data/tmp"]
           [a_txt] (mkPath "sub" "data/sub") [mkPath "tmp" "data/tmp"]);
    [reflexivity|reflexivity|repeat constructor|reflexivity].
Defined.

Lemma exclude_hidden_files_all_hidden entries :
  Forall (fun f => startswith (name f) "." = true) entries ->
  exclude_hidden_files entries = [].
Proof.
  induction 1 as [|f entries Hf _ IH]; [reflexivity|].
  unfold exclude_hidden_files in *. cbn [List.filter].
  rewrite Hf. exact IH.
Qed.

(** X19. A directory with nothing to read (no entry, or hidden entries only
    with the exclusion asked for) is accepted by the constructor, whatever
    the hidden entries are; from it [load_data] returns one document with an
    empty body when it concatenates, and no document when it does not. *)
Theorem hidden_only_directory fs input_dir entries load_kwargs :
  iterdir fs input_dir = inr entries ->
  Forall (fun f => startswith (name f) "." = true) entries ->
  __init__ fs input_dir true = Ret (mkReader input_dir []) /\
  load_data fs (mkReader input_dir []) load_kwargs
  = Ret (if default true (load_kwargs !! "concatenate")
         then [Document_of_text ""]
         else []).
Proof.
  intros Hdir Hhidden. split.
  - unfold __init__.
    rewrite Hdir, (exclude_hidden_files_all_hidden _ Hhidden). reflexivity.
  - unfold load_data. cbn [input_files read_files].
    destruct (default true (load_kwargs !! "concatenate")); reflexivity.
Qed.

Lemma hidden_only_directory_witness :
  __init__ hidden_fs "data" true = Ret (mkReader "data" []) /\
  load_data hidden_fs (mkReader "data" []) ∅
  = Ret (if default true ((∅ : gmap string bool) !! "concatenate")
         then [Document_of_text ""]
         else []).
Proof.
  apply (hidden_only_directory hidden_fs "data"
           [dot_git; mkPath ".env" "data/.env"] ∅); [reflexivity|].
  repeat constructor.
Defined.

End SimpleDirectoryReaderLoading.
